(** * A static-asset HTTP server with request logging and graceful shutdown

    Shallow embedding of [main.go]: the configuration loader [loadConfig],
    the response wrapper [responseWriter], the logging middleware
    [RequestLogger] and the lifecycle of [main], followed by the properties
    of the request log and of the process exit code.

    Conventions.  Go's [int], [int64] and [time.Duration] are [Z]; byte
    slices are [list byte]; the process environment is a finite map from
    names to values; an interface is a type class; a goroutine is a frame of
    a small-step machine, and the scheduler is a list of actions. *)

From Stdlib Require Import ZArith Lia.
From Stdlib Require Import Strings.String Strings.Byte.
From stdpp Require Import base option list gmap strings.

Open Scope string_scope.
Open Scope Z_scope.

(** ** The fragments of the Go standard library that [main.go] calls *)

(** [error] values.  [Wrap] is an error that wraps another one, as
    [fmt.Errorf("...: %w", err)] or [*net.OpError] do. *)
Inductive error : Type :=
| ErrServerClosed                       (* http.ErrServerClosed *)
| DeadlineExceeded                      (* context.DeadlineExceeded *)
| ErrOther (msg : string)
| Wrap (msg : string) (inner : error).

Module errors.
(** [errors.Is(err, target)] for a sentinel target: walk the chain of
    wrapped errors. *)
Fixpoint Is (err : error) (target : error -> bool) : bool :=
  target err ||
  match err with
  | Wrap _ inner => Is inner target
  | _ => false
  end.
End errors.

Definition isErrServerClosed (e : error) : bool :=
  match e with ErrServerClosed => true | _ => false end.

Module time.
(** [time.Duration] is a count of nanoseconds in an [int64]. *)
Definition Nanosecond : Z := 1.
Definition Second : Z := 1000000000 * Nanosecond.
Definition minDuration : Z := - 2 ^ 63.
Definition maxDuration : Z := 2 ^ 63 - 1.

(** [t.Sub(u)] on two monotonic clock readings: the difference, saturated
    to the range of [Duration]. *)
Definition Sub (t u : Z) : Z :=
  if t - u <? minDuration then minDuration
  else if maxDuration <? t - u then maxDuration
  else t - u.

(** [time.Since(start)] when the clock reads [now]. *)
Definition Since (now start : Z) : Z := Sub now start.
End time.

(** Signals that [main] subscribes to, and [sig.String()]. *)
Inductive Signal : Type := SIGINT | SIGTERM.

Definition Signal_String (s : Signal) : string :=
  match s with
  | SIGINT => "interrupt"
  | SIGTERM => "terminated"
  end.

Module slog.
Inductive Level : Type := LevelInfo | LevelError.

Inductive Value : Type :=
| StringValue (s : string)
| IntValue (n : Z)
| Int64Value (n : Z)
| DurationValue (d : Z)
| AnyValue (e : error).

Definition Attr : Type := (string * Value)%type.

Definition String (key value : string) : Attr := (key, StringValue value).
Definition Int (key : string) (value : Z) : Attr := (key, IntValue value).
Definition Int64 (key : string) (value : Z) : Attr := (key, Int64Value value).
Definition Duration (key : string) (value : Z) : Attr :=
  (key, DurationValue value).
Definition Any (key : string) (value : error) : Attr := (key, AnyValue value).

(** One record handed to the JSON handler.  The timestamp that the handler
    adds on its own is not part of the record built by the program. *)
Record Record_ : Type := mkRecord {
  level : Level;
  msg : string;
  attrs : list Attr
}.

Definition Info (m : string) (args : list Attr) : Record_ :=
  mkRecord LevelInfo m args.
Definition Error (m : string) (args : list Attr) : Record_ :=
  mkRecord LevelError m args.

(** The value of the first attribute stored under [key]. *)
Fixpoint attr (key : string) (args : list Attr) : option Value :=
  match args with
  | [] => None
  | (k, v) :: rest => if String.eqb k key then Some v else attr key rest
  end.
End slog.

(** [os.Getenv]: the value of the variable, empty when it is not set. *)
Definition Getenv (env : gmap string string) (key : string) : string :=
  default "" (env !! key).

(** ** Configuration *)

Record Config : Type := mkConfig {
  Port : string;
  StaticDir : string;
  ReadTimeout : Z;
  WriteTimeout : Z;
  MaxHeaderBytes : Z
}.

Definition loadConfig (env : gmap string string) : Config :=
  let port := Getenv env "PORT" in
  let port := if String.eqb port "" then "8080" else port in
  let staticDir := Getenv env "STATIC_DIR" in
  let staticDir := if String.eqb staticDir "" then "./static" else staticDir in
  {| Port := port;
     StaticDir := staticDir;
     ReadTimeout := 10 * time.Second;
     WriteTimeout := 10 * time.Second;
     MaxHeaderBytes := Z.shiftl 1 20 |}.

(** ** net/http: requests, response writers, handlers *)

Module http.
(** The parts of [*http.Request] that the program reads. *)
Record Request : Type := mkRequest {
  Method : string;
  URL_Path : string;
  RemoteAddr : string;
  Header : gmap string (list string)
}.

(** [r.UserAgent()] is [r.Header.Get("User-Agent")]: the first value stored
    under the key, empty when there is none. *)
Definition UserAgent (r : Request) : string :=
  match Header r !! "User-Agent" with
  | Some (v :: _) => v
  | _ => ""
  end.

(** The interface [http.ResponseWriter], over the state [W] of the
    response channel of one connection.  [HeaderSet] stands for
    [w.Header().Set(key, value)]. *)
Class ResponseWriter (W : Type) : Type := {
  HeaderSet : W -> string -> string -> W;
  Write : W -> list byte -> W * (Z * option error);
  WriteHeader : W -> Z -> W
}.

(** What a handler does with the writer it is given, as a tree of calls:
    every call goes through the methods of the writer, the results of
    [Write] come back to the handler, and the handler may consult the
    file system (of type [FS]) at any point.  It ends by returning or by
    panicking. *)
Inductive Handling (FS : Type) : Type :=
| Return
| Panic (v : string)
| CallHeaderSet (key value : string) (k : Handling FS)
| CallWriteHeader (statusCode : Z) (k : Handling FS)
| CallWrite (b : list byte) (k : Z -> option error -> Handling FS)
| ReadFS (k : FS -> Handling FS).

Arguments Return {FS}.
Arguments Panic {FS} v.
Arguments CallHeaderSet {FS} key value k.
Arguments CallWriteHeader {FS} statusCode k.
Arguments CallWrite {FS} b k.
Arguments ReadFS {FS} k.

(** An [http.Handler] whose [ServeHTTP(w, r)] behaves as the tree. *)
Definition Handler (FS : Type) : Type := Request -> Handling FS.

(** The fields of [http.Server] that [main] sets; [H] is the type of the
    handler that the server runs for each request. *)
Record Server (H : Type) : Type := mkServer {
  Addr : string;
  Handler_ : H;
  ReadTimeout : Z;
  WriteTimeout : Z;
  MaxHeaderBytes : Z
}.

Arguments mkServer {H} _ _ _ _ _.
Arguments Addr {H} _.
Arguments Handler_ {H} _.
Arguments ReadTimeout {H} _.
Arguments WriteTimeout {H} _.
Arguments MaxHeaderBytes {H} _.
End http.

(** ** The response wrapper *)

Section Middleware.
Context {W : Type} `{!http.ResponseWriter W}.
Context {FS : Type}.

(** [responseWriter] embeds the writer of the connection and declares two
    fields of its own. *)
Record responseWriter : Type := mkResponseWriter {
  ResponseWriter : W;
  status : Z;
  size : Z
}.

(** The type declares no method.  The three methods of the embedded
    interface are promoted: a call on the wrapper is the same call on the
    embedded writer, and the fields [status] and [size] are not part of
    it. *)
Definition responseWriter_HeaderSet (w : responseWriter) (key value : string)
  : responseWriter :=
  {| ResponseWriter := http.HeaderSet (ResponseWriter w) key value;
     status := status w;
     size := size w |}.

Definition responseWriter_WriteHeader (w : responseWriter) (statusCode : Z)
  : responseWriter :=
  {| ResponseWriter := http.WriteHeader (ResponseWriter w) statusCode;
     status := status w;
     size := size w |}.

Definition responseWriter_Write (w : responseWriter) (b : list byte)
  : responseWriter * (Z * option error) :=
  let '(inner, res) := http.Write (ResponseWriter w) b in
  ({| ResponseWriter := inner; status := status w; size := size w |}, res).

(** ** The logging middleware *)

(** What a goroutine does that an outside observer can tell. *)
Inductive Obs : Type :=
| ONow (t : Z)                                  (* time.Now() read t *)
| OWriteHeader (statusCode : Z)                 (* call on the wrapper *)
| OWrite (b : list byte) (n : Z) (err : option error)
| OReturn                                       (* next.ServeHTTP returned *)
| OPanic (v : string)
| OSince (t : Z)                                (* time.Since read t *)
| OLog (rec : slog.Record_).                    (* a record on stdout *)

(** Where the closure returned by [RequestLogger] stands. *)
Inductive Frame : Type :=
| AtEntry (w : W)
| InServeHTTP (start : Z) (wrapper : responseWriter) (p : http.Handling FS)
| AfterServeHTTP (start : Z) (wrapper : responseWriter)
| AtLog (duration : Z) (wrapper : responseWriter)
| Returned (wrapper : responseWriter)
| Panicked (wrapper : responseWriter).

(** One step of the closure for the request [r], when the clock reads
    [now] and the file system is [fs]: the next frame and what the step
    let observe. *)
Definition RequestLogger (next : http.Handler FS) (r : http.Request)
    (now : Z) (fs : FS) (f : Frame) : Frame * list Obs :=
  match f with
  | AtEntry w =>
      let start := now in
      let wrapper := {| ResponseWriter := w; status := 0; size := 0 |} in
      (InServeHTTP start wrapper (next r), [ONow start])
  | InServeHTTP start wrapper p =>
      match p with
      | http.Return => (AfterServeHTTP start wrapper, [OReturn])
      | http.Panic v => (Panicked wrapper, [OPanic v])
      | http.CallHeaderSet key value k =>
          (InServeHTTP start (responseWriter_HeaderSet wrapper key value) k,
           [])
      | http.CallWriteHeader statusCode k =>
          (InServeHTTP start (responseWriter_WriteHeader wrapper statusCode) k,
           [OWriteHeader statusCode])
      | http.CallWrite b k =>
          let '(wrapper', (n, err)) := responseWriter_Write wrapper b in
          (InServeHTTP start wrapper' (k n err), [OWrite b n err])
      | http.ReadFS k => (InServeHTTP start wrapper (k fs), [])
      end
  | AfterServeHTTP start wrapper =>
      let duration := time.Since now start in
      (AtLog duration wrapper, [OSince now])
  | AtLog duration wrapper =>
      (Returned wrapper,
       [OLog (slog.Info "HTTP Request"
                [slog.String "method" (http.Method r);
                 slog.String "path" (http.URL_Path r);
                 slog.Int "status" (status wrapper);
                 slog.String "remote_addr" (http.RemoteAddr r);
                 slog.String "user_agent" (http.UserAgent r);
                 slog.Duration "duration" duration;
                 slog.Int64 "bytes" (size wrapper)])])
  | Returned wrapper => (f, [])
  | Panicked wrapper => (f, [])
  end.

(** The type of the handler that [RequestLogger] returns. *)
Definition LoggedHandler : Type :=
  http.Request -> Z -> FS -> Frame -> Frame * list Obs.

(** ** The process *)

(** The static responder: [http.FileServer(http.Dir(dir))], and a
    [ServeMux] with one handler registered under the pattern "/".  Both
    come from net/http and are parameters here. *)
Variable FileServer : string -> http.Handler FS.
Variable ServeMux_Handle_root : http.Handler FS -> http.Handler FS.

Inductive Thread : Type :=
| MainGoroutine                 (* func main *)
| ServeGoroutine                (* the go func() of line 45 *)
| ConnGoroutine (g : nat).      (* the goroutine serving the g-th request *)

(** Where [main] stands once the server goroutine is spawned and the
    signal channel is subscribed. *)
Inductive MainPc : Type :=
| MainWaiting                   (* line 59: sig := <-quit *)
| MainInShutdown (deadline : Z) (* line 65: inside srv.Shutdown(ctx) *)
| MainReturned.

Inductive ServePc : Type :=
| ServeSpawned                  (* line 45: created, not yet run *)
| ServeListening                (* line 50: inside srv.ListenAndServe() *)
| ServeReturned.

(** One accepted request: the request, the writer of its connection as it
    was handed over, and the frame of its handler. *)
Record Conn : Type := mkConn {
  creq : http.Request;
  cinit : W;
  cframe : Frame
}.

Record Process : Type := mkProcess {
  cfg : Config;
  srv : http.Server LoggedHandler;
  fsys : FS;
  clock : Z;                    (* monotonic reading, ns since process start *)
  mainpc : MainPc;
  servepc : ServePc;
  conns : list Conn;
  trace : list (Thread * Obs);
  exit : option Z               (* exit code, once the process has ended *)
}.

Definition set_clock (t : Z) (st : Process) : Process :=
  mkProcess (cfg st) (srv st) (fsys st) t (mainpc st) (servepc st)
    (conns st) (trace st) (exit st).

Definition set_fsys (fs : FS) (st : Process) : Process :=
  mkProcess (cfg st) (srv st) fs (clock st) (mainpc st) (servepc st)
    (conns st) (trace st) (exit st).

Definition set_mainpc (pc : MainPc) (st : Process) : Process :=
  mkProcess (cfg st) (srv st) (fsys st) (clock st) pc (servepc st)
    (conns st) (trace st) (exit st).

Definition set_servepc (pc : ServePc) (st : Process) : Process :=
  mkProcess (cfg st) (srv st) (fsys st) (clock st) (mainpc st) pc
    (conns st) (trace st) (exit st).

Definition set_conns (cs : list Conn) (st : Process) : Process :=
  mkProcess (cfg st) (srv st) (fsys st) (clock st) (mainpc st) (servepc st)
    cs (trace st) (exit st).

Definition os_Exit (code : Z) (st : Process) : Process :=
  mkProcess (cfg st) (srv st) (fsys st) (clock st) (mainpc st) (servepc st)
    (conns st) (trace st) (Some code).

(** Append what the goroutine [t] let observe to the history. *)
Definition observe (t : Thread) (obs : list Obs) (st : Process) : Process :=
  mkProcess (cfg st) (srv st) (fsys st) (clock st) (mainpc st) (servepc st)
    (conns st) (trace st ++ map (pair t) obs) (exit st).

Definition logger (t : Thread) (rec : slog.Record_) (st : Process) : Process :=
  observe t [OLog rec] st.

(** What happens to the process from outside, and which goroutine the
    scheduler runs next. *)
Inductive Action : Type :=
| Tick (d : N)                               (* d nanoseconds pass *)
| FsChange (fs : FS)                         (* the served directory changes *)
| RunServe                                   (* lines 46-50, up to the call *)
| ListenAndServeReturns (err : option error) (* line 50 *)
| Deliver (sig : Signal)                     (* a signal reaches quit *)
| ShutdownReturns (err : option error)       (* line 65 *)
| Accept (r : http.Request) (w : W)          (* the server accepts a request *)
| RunConn (g : nat).                         (* one step of a handler *)

(** [main], lines 23 to 57: the state in which [main] blocks on [quit]. *)
Definition main (env : gmap string string) (fs : FS) : Process :=
  let cfg := loadConfig env in
  let mux := ServeMux_Handle_root (FileServer (StaticDir cfg)) in
  let handler := RequestLogger mux in
  let srv := {| http.Addr := ":" ++ Port cfg;
                http.Handler_ := handler;
                http.ReadTimeout := ReadTimeout cfg;
                http.WriteTimeout := WriteTimeout cfg;
                http.MaxHeaderBytes := MaxHeaderBytes cfg |} in
  {| cfg := cfg; srv := srv; fsys := fs; clock := 0;
     mainpc := MainWaiting; servepc := ServeSpawned;
     conns := []; trace := []; exit := None |}.

(** The server goroutine, lines 46 to 53. *)
Definition serve_step (a : Action) (st : Process) : Process :=
  match a, servepc st with
  | RunServe, ServeSpawned =>
      set_servepc ServeListening
        (logger ServeGoroutine
           (slog.Info "Starting server"
              [slog.String "port" (Port (cfg st));
               slog.String "dir" (StaticDir (cfg st))]) st)
  | ListenAndServeReturns (Some err), ServeListening =>
      if negb (errors.Is err isErrServerClosed) then
        os_Exit 1
          (logger ServeGoroutine
             (slog.Error "Could not listen on"
                [slog.String "addr" (Port (cfg st)); slog.Any "error" err]) st)
      else set_servepc ServeReturned st
  | ListenAndServeReturns None, ServeListening => set_servepc ServeReturned st
  | _, _ => st
  end.

(** [main], lines 59 to 70.  Returning from [main] ends the process with
    code 0. *)
Definition main_step (a : Action) (st : Process) : Process :=
  match a, mainpc st with
  | Deliver sig, MainWaiting =>
      set_mainpc (MainInShutdown (clock st + 5 * time.Second))
        (logger MainGoroutine
           (slog.Info "Server is shutting down..."
              [slog.String "signal" (Signal_String sig)]) st)
  | ShutdownReturns err, MainInShutdown _ =>
      let st :=
        match err with
        | Some e =>
            logger MainGoroutine
              (slog.Error "Server forced to shutdown" [slog.Any "error" e]) st
        | None => st
        end in
      os_Exit 0
        (set_mainpc MainReturned
           (logger MainGoroutine (slog.Info "Server exited properly" []) st))
  | _, _ => st
  end.

(** The goroutines of the accepted requests. *)
Definition conn_step (a : Action) (st : Process) : Process :=
  match a with
  | Accept r w =>
      match servepc st, mainpc st with
      | ServeListening, MainWaiting =>
          set_conns (conns st ++ [mkConn r w (AtEntry w)]) st
      | _, _ => st
      end
  | RunConn g =>
      match conns st !! g with
      | Some c =>
          let '(f, obs) :=
            http.Handler_ (srv st) (creq c) (clock st) (fsys st) (cframe c) in
          observe (ConnGoroutine g) obs
            (set_conns (<[g := mkConn (creq c) (cinit c) f]> (conns st)) st)
      | None => st
      end
  | _ => st
  end.

(** One action.  Nothing moves once the process has ended.  The clock is
    the monotonic reading behind [time.Now] and [time.Since]: an [int64]
    that only grows, so a tick stops at the largest value of the type. *)
Definition step (st : Process) (a : Action) : Process :=
  match exit st with
  | Some _ => st
  | None =>
      match a with
      | Tick d => set_clock (Z.min (clock st + Z.of_N d) time.maxDuration) st
      | FsChange fs => set_fsys fs st
      | RunServe | ListenAndServeReturns _ => serve_step a st
      | Deliver _ | ShutdownReturns _ => main_step a st
      | Accept _ _ | RunConn _ => conn_step a st
      end
  end.

Definition run (st : Process) (sched : list Action) : Process :=
  fold_left step sched st.

(** ** Reading the history *)

(** What the goroutine of the [g]-th request let observe, in order. *)
Definition events (g : nat) (tr : list (Thread * Obs)) : list Obs :=
  omap (fun e : Thread * Obs =>
          match fst e with
          | ConnGoroutine g' => if Nat.eqb g' g then Some (snd e) else None
          | _ => None
          end) tr.

(** The records among a list of observations. *)
Definition records (evs : list Obs) : list slog.Record_ :=
  omap (fun o => match o with OLog rec => Some rec | _ => None end) evs.

(** The method calls that change the response. *)
Definition is_call (o : Obs) : bool :=
  match o with
  | OWriteHeader _ | OWrite _ _ _ => true
  | _ => false
  end.

(** The number of bytes written to the response body: the sum of the
    counts that the calls to [Write] returned. *)
Fixpoint bytes_written (evs : list Obs) : Z :=
  match evs with
  | [] => 0
  | OWrite _ n _ :: rest => n + bytes_written rest
  | _ :: rest => bytes_written rest
  end.

(** The first status code that the handler set with [WriteHeader]. *)
Fixpoint first_status (evs : list Obs) : option Z :=
  match evs with
  | [] => None
  | OWriteHeader statusCode :: _ => Some statusCode
  | _ :: rest => first_status rest
  end.

(** The record that line 111 builds from the request, the two fields of
    the wrapper and the measured duration. *)
Definition request_record (r : http.Request) (st : Z) (duration : Z) (sz : Z)
  : slog.Record_ :=
  slog.Info "HTTP Request"
    [slog.String "method" (http.Method r);
     slog.String "path" (http.URL_Path r);
     slog.Int "status" st;
     slog.String "remote_addr" (http.RemoteAddr r);
     slog.String "user_agent" (http.UserAgent r);
     slog.Duration "duration" duration;
     slog.Int64 "bytes" sz].

(** [ServeHTTP] run to its end on the writer [w] while the file system
    stays [fs]: the calls made and the writer left behind. *)
Fixpoint ServeHTTP (p : http.Handling FS) (fs : FS) (w : W) : list Obs * W :=
  match p with
  | http.Return => ([], w)
  | http.Panic _ => ([], w)
  | http.CallHeaderSet key value k => ServeHTTP k fs (http.HeaderSet w key value)
  | http.CallWriteHeader statusCode k =>
      let '(calls, w') := ServeHTTP k fs (http.WriteHeader w statusCode) in
      (OWriteHeader statusCode :: calls, w')
  | http.CallWrite b k =>
      let '(w1, (n, err)) := http.Write w b in
      let '(calls, w') := ServeHTTP (k n err) fs w1 in
      (OWrite b n err :: calls, w')
  | http.ReadFS k => ServeHTTP (k fs) fs w
  end.

(** A handler that returns on every path. *)
Inductive returns : http.Handling FS -> Prop :=
| returns_Return : returns http.Return
| returns_HeaderSet key value k :
    returns k -> returns (http.CallHeaderSet key value k)
| returns_WriteHeader statusCode k :
    returns k -> returns (http.CallWriteHeader statusCode k)
| returns_Write b k :
    (forall n err, returns (k n err)) -> returns (http.CallWrite b k)
| returns_ReadFS k :
    (forall fs, returns (k fs)) -> returns (http.ReadFS k).

(** The same process with [pre] in front of its history, and with no
    history at all. *)
Definition prepend (pre : list (Thread * Obs)) (st : Process) : Process :=
  mkProcess (cfg st) (srv st) (fsys st) (clock st) (mainpc st) (servepc st)
    (conns st) (pre ++ trace st) (exit st).

Definition forget (st : Process) : Process :=
  mkProcess (cfg st) (srv st) (fsys st) (clock st) (mainpc st) (servepc st)
    (conns st) [] (exit st).

(** The records of the lifecycle, as lines 51, 60, 66 and 69 build them. *)
Definition shutting_down_record (sig : Signal) : Thread * Obs :=
  (MainGoroutine,
   OLog (slog.Info "Server is shutting down..."
           [slog.String "signal" (Signal_String sig)])).

Definition forced_record (e : error) : Thread * Obs :=
  (MainGoroutine,
   OLog (slog.Error "Server forced to shutdown" [slog.Any "error" e])).

Definition exited_record : Thread * Obs :=
  (MainGoroutine, OLog (slog.Info "Server exited properly" [])).

Definition listen_failed_record (port : string) (e : error) : Thread * Obs :=
  (ServeGoroutine,
   OLog (slog.Error "Could not listen on"
           [slog.String "addr" port; slog.Any "error" e])).

(** ** The history of one request *)

(** How the frame of a handler and what its goroutine has let observe so
    far go together, for the request [r] when the clock reads [now]. *)
Inductive frame_hist (next : http.Handler FS) (r : http.Request) (now : Z)
  : Frame -> list Obs -> Prop :=
| fh_AtEntry w :
    frame_hist next r now (AtEntry w) []
| fh_InServeHTTP start wrapper p calls :
    Forall (fun o => is_call o = true) calls ->
    0 <= start <= now ->
    status wrapper = 0 -> size wrapper = 0 ->
    (returns (next r) -> returns p) ->
    frame_hist next r now (InServeHTTP start wrapper p) (ONow start :: calls)
| fh_AfterServeHTTP start wrapper calls :
    Forall (fun o => is_call o = true) calls ->
    0 <= start <= now ->
    status wrapper = 0 -> size wrapper = 0 ->
    frame_hist next r now (AfterServeHTTP start wrapper)
      (ONow start :: calls ++ [OReturn])
| fh_AtLog start finish wrapper calls :
    Forall (fun o => is_call o = true) calls ->
    0 <= start <= finish -> finish <= now ->
    status wrapper = 0 -> size wrapper = 0 ->
    frame_hist next r now (AtLog (finish - start) wrapper)
      (ONow start :: calls ++ [OReturn; OSince finish])
| fh_Returned start finish wrapper calls :
    Forall (fun o => is_call o = true) calls ->
    0 <= start <= finish -> finish <= now ->
    status wrapper = 0 -> size wrapper = 0 ->
    frame_hist next r now (Returned wrapper)
      (ONow start :: calls ++
         [OReturn; OSince finish;
          OLog (request_record r (status wrapper) (finish - start)
                  (size wrapper))])
| fh_Panicked start wrapper calls v :
    Forall (fun o => is_call o = true) calls ->
    0 <= start <= now ->
    status wrapper = 0 -> size wrapper = 0 ->
    ~ returns (next r) ->
    frame_hist next r now (Panicked wrapper)
      (ONow start :: calls ++ [OPanic v]).

(** The [g]-th request of a process and its share of the history. *)
Definition conn_hist (next : http.Handler FS) (st : Process) (g : nat)
  : Prop :=
  match conns st !! g with
  | Some c =>
      frame_hist next (creq c) (clock st) (cframe c) (events g (trace st))
  | None => events g (trace st) = []
  end.

(** The invariant of a process whose server runs [RequestLogger next]. *)
Definition Inv (next : http.Handler FS) (st : Process) : Prop :=
  http.Handler_ (srv st) = RequestLogger next /\
  0 <= clock st <= time.maxDuration /\
  forall g, conn_hist next st g.

Definition is_Returned (f : Frame) : bool :=
  match f with Returned _ => true | _ => false end.

(** What one action adds to the history. *)
Definition emitted (st : Process) (a : Action) : list (Thread * Obs) :=
  drop (length (trace st)) (trace (step st a)).


(** ** Requests served while the file system stays as it is *)

(** What is left of the response from a frame on: the calls still to come
    and the writer at the end, the file system staying [fs]. *)
Definition finish_frame (next : http.Handler FS) (r : http.Request) (fs : FS)
    (f : Frame) : list Obs * W :=
  match f with
  | AtEntry w => ServeHTTP (next r) fs w
  | InServeHTTP _ wrapper p => ServeHTTP p fs (ResponseWriter wrapper)
  | AfterServeHTTP _ wrapper | AtLog _ wrapper
  | Returned wrapper | Panicked wrapper => ([], ResponseWriter wrapper)
  end.

(** The calls made so far by the [g]-th request and the calls still to
    come make up the run of the inner handler on the writer that the
    request came with. *)
Definition conn_stable (next : http.Handler FS) (fs : FS) (st : Process)
    (g : nat) : Prop :=
  match conns st !! g with
  | Some c =>
      ((filter (fun o => is_call o = true) (events g (trace st))
          ++ (finish_frame next (creq c) fs (cframe c)).1)%list,
       (finish_frame next (creq c) fs (cframe c)).2)
      = ServeHTTP (next (creq c)) fs (cinit c)
  | None => True
  end.

Definition Stable (next : http.Handler FS) (fs : FS) (n0 : nat)
    (st : Process) : Prop :=
  fsys st = fs /\ forall g, (n0 <= g)%nat -> conn_stable next fs st g.

Definition is_FsChange (a : Action) : bool :=
  match a with FsChange _ => true | _ => false end.

(** ** The records of the lifecycle *)

(** The record of line 46. *)
Definition starting_record (c : Config) : Thread * Obs :=
  (ServeGoroutine,
   OLog (slog.Info "Starting server"
           [slog.String "port" (Port c); slog.String "dir" (StaticDir c)])).

Definition by_main (e : Thread * Obs) : bool :=
  match e.1 with MainGoroutine => true | _ => false end.

Definition by_serve (e : Thread * Obs) : bool :=
  match e.1 with ServeGoroutine => true | _ => false end.

Definition is_Deliver (a : Action) : bool :=
  match a with Deliver _ => true | _ => false end.

(** What [main] has logged, by where it stands. *)
Definition main_log_ok (pc : MainPc) (l : list (Thread * Obs)) : Prop :=
  match pc with
  | MainWaiting => l = []
  | MainInShutdown _ => exists sig, l = [shutting_down_record sig]
  | MainReturned =>
      exists sig,
        l = [shutting_down_record sig; exited_record] \/
        exists e, l = [shutting_down_record sig; forced_record e; exited_record]
  end.

(** What the server goroutine has logged, by where it stands. *)
Definition serve_log_ok (c : Config) (pc : ServePc) (ex : option Z)
    (l : list (Thread * Obs)) : Prop :=
  match pc with
  | ServeSpawned => l = []
  | ServeListening =>
      l = [starting_record c] \/
      exists e,
        errors.Is e isErrServerClosed = false /\ ex = Some 1 /\
        l = [starting_record c; listen_failed_record (Port c) e]
  | ServeReturned => l = [starting_record c]
  end.

(** Where an exit code comes from. *)
Definition exit_ok (st : Process) : Prop :=
  match exit st with
  | None => mainpc st <> MainReturned
  | Some code =>
      (code = 0 /\ mainpc st = MainReturned /\
       last (trace st) = Some exited_record) \/
      (code = 1 /\ mainpc st <> MainReturned /\
       exists e,
         errors.Is e isErrServerClosed = false /\
         last (trace st) = Some (listen_failed_record (Port (cfg st)) e))
  end.

Definition Life (st : Process) : Prop :=
  main_log_ok (mainpc st) (List.filter by_main (trace st)) /\
  serve_log_ok (cfg st) (servepc st) (exit st)
    (List.filter by_serve (trace st)) /\
  exit_ok st.

(** ** Counting and scheduling *)



(** The action that runs the goroutine of the [g]-th request. *)
Definition runs (g : nat) (a : Action) : bool :=
  match a with RunConn g' => Nat.eqb g' g | _ => false end.


End Middleware.

(** ** A concrete server, to run the model on *)

(** A response channel that records what it is sent, in the manner of
    [httptest.ResponseRecorder]: the first status code wins, a body write
    without a status code implies 200, and every write succeeds in full. *)
Record Recorder : Type := mkRecorder {
  Code : Z;
  wroteHeader : bool;
  HeaderMap : list (string * string);
  Body : list byte
}.

Definition Recorder_WriteHeader (rw : Recorder) (code : Z) : Recorder :=
  if wroteHeader rw then rw
  else mkRecorder code true (HeaderMap rw) (Body rw).

Definition Recorder_Write (rw : Recorder) (b : list byte)
  : Recorder * (Z * option error) :=
  let rw := Recorder_WriteHeader rw 200 in
  (mkRecorder (Code rw) true (HeaderMap rw) (Body rw ++ b),
   (Z.of_nat (length b), None)).

Definition Recorder_HeaderSet (rw : Recorder) (key value : string) : Recorder :=
  mkRecorder (Code rw) (wroteHeader rw) ((key, value) :: HeaderMap rw) (Body rw).

#[export] Instance Recorder_ResponseWriter : http.ResponseWriter Recorder := {|
  http.HeaderSet := Recorder_HeaderSet;
  http.Write := Recorder_Write;
  http.WriteHeader := Recorder_WriteHeader
|}.

Definition NewRecorder : Recorder := mkRecorder 0 false [] [].

(** A directory as a list of named files, and a responder for regular
    files in the manner of [http.FileServer]: the file under the requested
    path with 200, or the not-found page with 404.  The redirections of
    [http.FileServer] (a path that ends in /index.html, a directory) and
    the headers it sets are not part of it. *)
Definition Dir : Type := list (string * list byte).

Fixpoint Dir_Open (name : string) (d : Dir) : option (list byte) :=
  match d with
  | [] => None
  | (n, content) :: rest =>
      if String.eqb n name then Some content else Dir_Open name rest
  end.

Definition notFoundPage : list byte :=
  list_byte_of_string "404 page not found" ++ [x0a].

Definition fileServer (dir : string) : http.Handler Dir :=
  fun r =>
    http.ReadFS (fun fs =>
      match Dir_Open (dir ++ http.URL_Path r) fs with
      | Some content =>
          http.CallWriteHeader 200
            (http.CallWrite content (fun _ _ => http.Return))
      | None =>
          http.CallWriteHeader 404
            (http.CallWrite notFoundPage (fun _ _ => http.Return))
      end).

Definition rootMux (h : http.Handler Dir) : http.Handler Dir := h.

Definition indexPage : list byte := list_byte_of_string "hello".

Definition exampleDir : Dir := [("./static/index.html", indexPage)].

Definition GET (path : string) : http.Request :=
  http.mkRequest "GET" path "127.0.0.1:51234"
    {["User-Agent" := ["curl/8.5.0"]]}.

Abbreviation exampleMain env := (main fileServer rootMux env exampleDir).

(** A run with one request for the index page: the server goroutine
    starts, the request is accepted, and its goroutine runs to the end
    while 10 ns pass between its two readings of the clock. *)
Definition indexSchedule : list (@Action Recorder Dir) :=
  [RunServe; Accept (GET "/index.html") NewRecorder; Tick 5;
   RunConn 0; Tick 7; RunConn 0; RunConn 0; RunConn 0; RunConn 0; Tick 3;
   RunConn 0; RunConn 0].

Abbreviation indexRun := (run (exampleMain ∅) indexSchedule).

Definition wrote (code : Z) (body : list byte) : Recorder :=
  mkRecorder code true [] body.

Definition indexConn : @Conn Recorder Dir :=
  mkConn (GET "/index.html") NewRecorder
    (Returned (mkResponseWriter (wrote 200 indexPage) 0 0)).

(** The same run with a request for a file that is not there. *)
Definition missingSchedule : list (@Action Recorder Dir) :=
  [RunServe; Accept (GET "/missing.html") NewRecorder; Tick 5;
   RunConn 0; Tick 7; RunConn 0; RunConn 0; RunConn 0; RunConn 0; Tick 3;
   RunConn 0; RunConn 0].

Abbreviation missingRun := (run (exampleMain ∅) missingSchedule).

(** Two requests for the index page whose goroutines take turns. *)
Definition twiceSchedule : list (@Action Recorder Dir) :=
  [Accept (GET "/index.html") NewRecorder; RunConn 0; RunConn 0; Tick 4;
   Accept (GET "/index.html") NewRecorder; RunConn 1; RunConn 0; RunConn 1;
   RunConn 1; RunConn 0; Tick 9; RunConn 0; RunConn 1; RunConn 1; RunConn 0;
   RunConn 1; RunConn 0; RunConn 1].

(** The server has started and a signal has arrived. *)
Abbreviation shutdownRun sig := (run (exampleMain ∅) [RunServe; Deliver sig]).

Definition addrInUse : error :=
  Wrap "listen tcp :8080" (Wrap "bind" (ErrOther "address already in use")).

(** A request is accepted and has set its status when a signal arrives
    and [Shutdown] gives up on it. *)
Definition cutOffSchedule : list (@Action Recorder Dir) :=
  [RunServe; Accept (GET "/index.html") NewRecorder; RunConn 0; RunConn 0;
   RunConn 0; Deliver SIGTERM; ShutdownReturns (Some DeadlineExceeded)].

Definition cutOffConn : @Conn Recorder Dir :=
  mkConn (GET "/index.html") NewRecorder
    (InServeHTTP 0 (mkResponseWriter (mkRecorder 200 true [] []) 0 0)
       (http.CallWrite indexPage (fun _ _ => http.Return))).

(** A directory with one regular file of 5 bytes, a run that serves it,
    and a run in which the request for it is cut off by a forced
    shutdown while the body is still to be written. *)
Definition helloFile : list byte := list_byte_of_string "hello".

Definition helloDir : Dir := [("./static/hello.txt", helloFile)].

Abbreviation helloMain := (main fileServer rootMux ∅ helloDir).

Definition helloSchedule : list (@Action Recorder Dir) :=
  [RunServe; Accept (GET "/hello.txt") NewRecorder; Tick 5;
   RunConn 0; Tick 7; RunConn 0; RunConn 0; RunConn 0; RunConn 0; Tick 3;
   RunConn 0; RunConn 0].

Abbreviation helloRun := (run helloMain helloSchedule).




(** * Properties *)

(** ** Configuration *)

Lemma Getenv_unset (env : gmap string string) (key : string) :
  env !! key = None -> Getenv env key = "".
Proof. unfold Getenv. intros ->. reflexivity. Qed.

Lemma Getenv_set (env : gmap string string) (key value : string) :
  env !! key = Some value -> Getenv env key = value.
Proof. unfold Getenv. intros ->. reflexivity. Qed.

Lemma eqb_empty_false (s : string) : s <> "" -> String.eqb s "" = false.
Proof. intros Hs. apply String.eqb_neq. exact Hs. Qed.

(** C5. [loadConfig] takes the port from PORT and the static root from
    STATIC_DIR, verbatim when the variable holds a non-empty value, and
    falls back to "8080" and "./static" when the variable is unset or
    empty; the two timeouts are 10 seconds and the header limit is
    [1 << 20] bytes whatever the environment. *)
Theorem loadConfig_defaults_and_overrides (env : gmap string string) :
  (env !! "PORT" = None \/ env !! "PORT" = Some "" ->
   Port (loadConfig env) = "8080") /\
  (forall p, env !! "PORT" = Some p -> p <> "" -> Port (loadConfig env) = p) /\
  (env !! "STATIC_DIR" = None \/ env !! "STATIC_DIR" = Some "" ->
   StaticDir (loadConfig env) = "./static") /\
  (forall d, env !! "STATIC_DIR" = Some d -> d <> "" ->
   StaticDir (loadConfig env) = d) /\
  ReadTimeout (loadConfig env) = 10 * time.Second /\
  WriteTimeout (loadConfig env) = 10 * time.Second /\
  time.Second = 1000000000 /\
  MaxHeaderBytes (loadConfig env) = 2 ^ 20.
Proof.
  unfold loadConfig; simpl.
  repeat split.
  - intros [Hp | Hp].
    + rewrite (Getenv_unset _ _ Hp). reflexivity.
    + rewrite (Getenv_set _ _ _ Hp). reflexivity.
  - intros p Hp Hne. rewrite (Getenv_set _ _ _ Hp).
    rewrite (eqb_empty_false p Hne). reflexivity.
  - intros [Hd | Hd].
    + rewrite (Getenv_unset _ _ Hd). reflexivity.
    + rewrite (Getenv_set _ _ _ Hd). reflexivity.
  - intros d Hd Hne. rewrite (Getenv_set _ _ _ Hd).
    rewrite (eqb_empty_false d Hne). reflexivity.
Qed.

(** The scenario of the specification: PORT=9090 and no STATIC_DIR. *)
Lemma loadConfig_port_9090 :
  Port (loadConfig {["PORT" := "9090"]}) = "9090" /\
  StaticDir (loadConfig {["PORT" := "9090"]}) = "./static".
Proof.
  destruct (loadConfig_defaults_and_overrides {["PORT" := "9090"]})
    as (_ & Hport & Hdir & _).
  split.
  - apply Hport; [vm_compute; reflexivity | discriminate].
  - apply Hdir. left. vm_compute. reflexivity.
Defined.

Section Properties.
Context {W : Type} `{!http.ResponseWriter W}.
Context {FS : Type}.
Variable FileServer : string -> http.Handler FS.
Variable ServeMux_Handle_root : http.Handler FS -> http.Handler FS.

Local Open Scope list_scope.

Local Abbreviation main := (main FileServer ServeMux_Handle_root).
Local Abbreviation Process := (@Process W FS).
Local Abbreviation Frame := (@Frame W FS).
Local Abbreviation Action := (@Action W FS).
Local Abbreviation Conn := (@Conn W FS).
Local Abbreviation responseWriter := (@responseWriter W).

(** ** Schedules *)

Lemma run_app (st : Process) (s1 s2 : list Action) :
  run st (s1 ++ s2) = run (run st s1) s2.
Proof. unfold run. apply fold_left_app. Qed.

Lemma run_snoc (st : Process) (sched : list Action) (a : Action) :
  run st (sched ++ [a]) = step (run st sched) a.
Proof. rewrite run_app. reflexivity. Qed.

Lemma run_cons (st : Process) (a : Action) (sched : list Action) :
  run st (a :: sched) = run (step st a) sched.
Proof. reflexivity. Qed.

(** An invariant of every step holds along every schedule. *)
Lemma run_invariant (P : Process -> Prop) :
  (forall st a, P st -> P (step st a)) ->
  forall sched st, P st -> P (run st sched).
Proof.
  intros Hstep sched. induction sched as [|a sched IH]; intros st HP.
  - exact HP.
  - rewrite run_cons. apply IH, Hstep, HP.
Qed.

Lemma step_exited (st : Process) (a : Action) (code : Z) :
  exit st = Some code -> step st a = st.
Proof. unfold step. intros ->. reflexivity. Qed.

Lemma run_exited (sched : list Action) (st : Process) (code : Z) :
  exit st = Some code -> run st sched = st.
Proof.
  induction sched as [|a sched IH]; intros Hex; [reflexivity|].
  rewrite run_cons, (step_exited _ _ _ Hex). apply IH, Hex.
Qed.

(** Unfold one step down to the record it builds. *)
Ltac step_cases :=
  unfold step, serve_step, main_step, conn_step, logger, observe, os_Exit,
    set_clock, set_fsys, set_mainpc, set_servepc, set_conns;
  repeat case_match; simpl in *; try congruence.

(** ** The configuration is never written *)

Lemma step_cfg (st : Process) (a : Action) : cfg (step st a) = cfg st.
Proof. step_cases; reflexivity. Qed.

Lemma step_srv (st : Process) (a : Action) : srv (step st a) = srv st.
Proof. step_cases; reflexivity. Qed.

(** C8. The configuration is what [loadConfig] returned, and the server
    holds the values it was built from, after every schedule: no step of
    serving or of shutting down writes to either. *)
Theorem Config_never_mutated (env : gmap string string) (fs : FS)
    (sched : list Action) :
  cfg (run (main env fs) sched) = loadConfig env /\
  http.Addr (srv (run (main env fs) sched))
    = (":" ++ Port (loadConfig env))%string /\
  http.ReadTimeout (srv (run (main env fs) sched))
    = ReadTimeout (loadConfig env) /\
  http.WriteTimeout (srv (run (main env fs) sched))
    = WriteTimeout (loadConfig env) /\
  http.MaxHeaderBytes (srv (run (main env fs) sched))
    = MaxHeaderBytes (loadConfig env) /\
  forall a, cfg (step (run (main env fs) sched) a)
            = cfg (run (main env fs) sched).
Proof.
  assert (Hinv : cfg (run (main env fs) sched) = loadConfig env /\
                 srv (run (main env fs) sched) = srv (main env fs)).
  { apply (run_invariant
             (fun st => cfg st = loadConfig env /\ srv st = srv (main env fs))).
    - intros st a [Hc Hs]. rewrite step_cfg, step_srv. auto.
    - split; reflexivity. }
  destruct Hinv as [Hc Hs]. rewrite Hc, Hs. simpl.
  repeat split; try reflexivity.
  intros a. rewrite step_cfg, Hc. reflexivity.
Qed.

(** ** Exit codes *)

(** C4. From any state in which the process is alive: when [srv.Shutdown]
    returns, with or without an error, the process ends with code 0, a
    forced shutdown being logged as an error first; when
    [srv.ListenAndServe] returns an error other than [ErrServerClosed] the
    process ends with code 1; when it returns [ErrServerClosed] the process
    goes on.  The exit code, once set, stays. *)
Theorem exit_codes (st : Process) :
  exit st = None ->
  (forall deadline err rest,
     mainpc st = MainInShutdown deadline ->
     exit (run st (ShutdownReturns err :: rest)) = Some 0) /\
  (forall deadline e,
     mainpc st = MainInShutdown deadline ->
     trace (step st (ShutdownReturns (Some e)))
       = trace st ++ [forced_record e; exited_record] /\
     trace (step st (ShutdownReturns None)) = trace st ++ [exited_record]) /\
  (forall e rest,
     servepc st = ServeListening ->
     errors.Is e isErrServerClosed = false ->
     exit (run st (ListenAndServeReturns (Some e) :: rest)) = Some 1 /\
     trace (step st (ListenAndServeReturns (Some e)))
       = trace st ++ [listen_failed_record (Port (cfg st)) e]) /\
  (forall e,
     errors.Is e isErrServerClosed = true ->
     exit (step st (ListenAndServeReturns (Some e))) = None).
Proof.
  intros Halive.
  assert (Hdown : forall deadline err,
             mainpc st = MainInShutdown deadline ->
             exit (step st (ShutdownReturns err)) = Some 0).
  { intros deadline err Hpc. unfold step, main_step. rewrite Halive, Hpc.
    reflexivity. }
  assert (Hfail : forall e,
             servepc st = ServeListening ->
             errors.Is e isErrServerClosed = false ->
             exit (step st (ListenAndServeReturns (Some e))) = Some 1).
  { intros e Hpc He. unfold step, serve_step. rewrite Halive, Hpc, He.
    reflexivity. }
  split; [|split; [|split]].
  - intros deadline err rest Hpc. rewrite run_cons.
    rewrite (run_exited rest _ 0); eauto.
  - intros deadline e Hpc. unfold step, main_step. rewrite Halive, Hpc.
    simpl. rewrite <- app_assoc. split; reflexivity.
  - intros e rest Hpc He. split.
    + rewrite run_cons. rewrite (run_exited rest _ 1); eauto.
    + unfold step, serve_step. rewrite Halive, Hpc, He. reflexivity.
  - intros e He. unfold step, serve_step. rewrite Halive.
    destruct (servepc st); simpl; try exact Halive.
    rewrite He. exact Halive.
Qed.

(** ** Signals *)

Lemma step_prepend (pre : list (Thread * Obs)) (st : Process) (a : Action) :
  step (prepend pre st) a = prepend pre (step st a).
Proof.
  destruct st as [c s f t mpc spc cs tr ex].
  unfold prepend, step; simpl.
  destruct ex; [reflexivity|].
  destruct a; unfold serve_step, main_step, conn_step; simpl;
    repeat case_match; simplify_eq; simpl; rewrite ?app_assoc;
    reflexivity.
Qed.

Lemma run_prepend (pre : list (Thread * Obs)) (sched : list Action)
    (st : Process) :
  run (prepend pre st) sched = prepend pre (run st sched).
Proof.
  revert st. induction sched as [|a sched IH]; intros st; [reflexivity|].
  rewrite !run_cons, step_prepend. apply IH.
Qed.

(** C7. When [main] waits for a signal, delivering SIGINT and delivering
    SIGTERM have the same effect: the signal is logged under its name,
    [main] enters [srv.Shutdown] with a deadline 5 seconds from now, and
    whatever happens next leads both processes through the same states;
    only the name in that one record tells the two histories apart. *)
Theorem SIGINT_SIGTERM_alike (st : Process) (sched : list Action) :
  exit st = None ->
  mainpc st = MainWaiting ->
  let shutdown :=
    set_mainpc (MainInShutdown (clock st + 5000000000)) (forget st) in
  (forall sig,
     step st (Deliver sig)
       = prepend (trace st ++ [shutting_down_record sig]) shutdown) /\
  run (step st (Deliver SIGINT)) sched
    = prepend (trace st ++ [shutting_down_record SIGINT]) (run shutdown sched) /\
  run (step st (Deliver SIGTERM)) sched
    = prepend (trace st ++ [shutting_down_record SIGTERM]) (run shutdown sched).
Proof.
  intros Halive Hpc shutdown.
  assert (Hstep : forall sig,
             step st (Deliver sig)
               = prepend (trace st ++ [shutting_down_record sig]) shutdown).
  { intros sig. unfold step, main_step. rewrite Halive, Hpc.
    unfold prepend, shutdown, set_mainpc, forget, logger, observe; simpl.
    rewrite app_nil_r. reflexivity. }
  split; [exact Hstep|].
  split; rewrite Hstep; apply run_prepend.
Qed.

(** ** The invariant of the request goroutines *)

Lemma events_app (g : nat) (tr1 tr2 : list (Thread * Obs)) :
  events g (tr1 ++ tr2) = events g tr1 ++ events g tr2.
Proof. unfold events. apply omap_app. Qed.

Lemma events_own (g : nat) (obs : list Obs) :
  events g (map (pair (ConnGoroutine g)) obs) = obs.
Proof.
  induction obs as [|o obs IH]; [reflexivity|].
  unfold events in *; simpl. rewrite Nat.eqb_refl. simpl. f_equal. exact IH.
Qed.

Lemma events_other (g : nat) (t : Thread) (obs : list Obs) :
  t <> ConnGoroutine g -> events g (map (pair t) obs) = [].
Proof.
  intros Hne. induction obs as [|o obs IH]; [reflexivity|].
  unfold events in *; simpl. destruct t as [| |g']; simpl; try exact IH.
  destruct (Nat.eqb_spec g' g) as [->|_]; [congruence|exact IH].
Qed.

Lemma elem_of_events (g : nat) (o : Obs) (tr : list (Thread * Obs)) :
  (ConnGoroutine g, o) ∈ tr <-> o ∈ events g tr.
Proof.
  unfold events. rewrite list_elem_of_omap. split.
  - intros Hin. exists (ConnGoroutine g, o). split; [exact Hin|].
    simpl. rewrite Nat.eqb_refl. reflexivity.
  - intros ([t o'] & Hin & Heq). simpl in Heq.
    destruct t as [| |g']; try discriminate.
    destruct (Nat.eqb_spec g' g) as [->|_]; [|discriminate].
    injection Heq as ->. exact Hin.
Qed.

Lemma frame_hist_mono (next : http.Handler FS) (r : http.Request)
    (now now' : Z) (f : Frame) (evs : list Obs) :
  now <= now' -> frame_hist next r now f evs -> frame_hist next r now' f evs.
Proof.
  intros Hle Hfh. destruct Hfh; constructor; auto; lia.
Qed.

Lemma Since_exact (now start : Z) :
  0 <= start <= now -> now <= time.maxDuration ->
  time.Since now start = now - start.
Proof.
  intros Hs Hn. unfold time.Since, time.Sub.
  unfold time.maxDuration, time.minDuration in *.
  destruct (Z.ltb_spec (now - start) (- 2 ^ 63)); [lia|].
  destruct (Z.ltb_spec (2 ^ 63 - 1) (now - start)); [lia|].
  reflexivity.
Qed.

Lemma Forall_is_call_snoc (calls : list Obs) (o : Obs) :
  Forall (fun o => is_call o = true) calls -> is_call o = true ->
  Forall (fun o => is_call o = true) (calls ++ [o]).
Proof. intros Hc Ho. apply Forall_app. split; [exact Hc|]. repeat constructor. exact Ho. Qed.

(** One step of the closure keeps the frame and the history together. *)
Lemma RequestLogger_hist (next : http.Handler FS) (r : http.Request)
    (now : Z) (fs : FS) (f : Frame) (evs : list Obs) :
  0 <= now <= time.maxDuration ->
  frame_hist next r now f evs ->
  frame_hist next r now (RequestLogger next r now fs f).1
    (evs ++ (RequestLogger next r now fs f).2).
Proof.
  intros Hnow Hfh.
  destruct Hfh as [w|start wr p calls Hc Hs Hst Hsz Hret
                   |start wr calls Hc Hs Hst Hsz
                   |start finish wr calls Hc Hs Hf Hst Hsz
                   |start finish wr calls Hc Hs Hf Hst Hsz
                   |start wr calls v Hc Hs Hst Hsz Hnr]; simpl.
  - apply (fh_InServeHTTP next r now now _ _ []); simpl; auto; lia.
  - destruct p as [|v|key value k|statusCode k|b k|k]; simpl.
    + apply fh_AfterServeHTTP; auto.
    + apply fh_Panicked; auto.
      intros Hr. apply Hret in Hr. inversion Hr.
    + rewrite app_nil_r. apply fh_InServeHTTP; auto.
      intros Hr. apply Hret in Hr. inversion Hr; assumption.
    + apply (fh_InServeHTTP next r now start _ _
               (calls ++ [OWriteHeader statusCode]));
        auto using Forall_is_call_snoc.
      intros Hr. apply Hret in Hr. inversion Hr; assumption.
    + unfold responseWriter_Write.
      destruct (http.Write (ResponseWriter wr) b) as [inner [n err]]; simpl.
      apply (fh_InServeHTTP next r now start _ _ (calls ++ [OWrite b n err]));
        auto using Forall_is_call_snoc.
      intros Hr. apply Hret in Hr. inversion Hr; auto.
    + rewrite app_nil_r. apply fh_InServeHTTP; auto.
      intros Hr. apply Hret in Hr. inversion Hr; auto.
  - rewrite Since_exact by lia. rewrite <- app_assoc; simpl.
    apply fh_AtLog; auto; lia.
  - rewrite <- app_assoc; simpl. apply fh_Returned; auto.
  - rewrite app_nil_r. apply fh_Returned; auto.
  - rewrite app_nil_r. apply fh_Panicked; auto.
Qed.

Lemma step_trace_prefix (st : Process) (a : Action) :
  exists new, trace (step st a) = trace st ++ new.
Proof.
  destruct st as [c s f t mpc spc cs tr ex].
  unfold step; simpl. destruct ex; [exists []; symmetry; apply app_nil_r|].
  destruct a; unfold serve_step, main_step, conn_step; simpl;
    repeat case_match; simplify_eq; simpl; rewrite <- ?app_assoc;
    eauto using app_nil_r.
Qed.

Lemma trace_step (st : Process) (a : Action) :
  trace (step st a) = trace st ++ emitted st a.
Proof.
  unfold emitted. destruct (step_trace_prefix st a) as [new ->].
  rewrite drop_app_length. reflexivity.
Qed.

Lemma Inv_set_mainpc (next : http.Handler FS) (pc : MainPc) (st : Process) :
  Inv next st -> Inv next (set_mainpc pc st).
Proof. intros HI. exact HI. Qed.

Lemma Inv_set_servepc (next : http.Handler FS) (pc : ServePc) (st : Process) :
  Inv next st -> Inv next (set_servepc pc st).
Proof. intros HI. exact HI. Qed.

Lemma Inv_set_fsys (next : http.Handler FS) (fs : FS) (st : Process) :
  Inv next st -> Inv next (set_fsys fs st).
Proof. intros HI. exact HI. Qed.

Lemma Inv_os_Exit (next : http.Handler FS) (code : Z) (st : Process) :
  Inv next st -> Inv next (os_Exit code st).
Proof. intros HI. exact HI. Qed.

Lemma Inv_logger (next : http.Handler FS) (t : Thread) (rec : slog.Record_)
    (st : Process) :
  (forall g, t <> ConnGoroutine g) ->
  Inv next st -> Inv next (logger t rec st).
Proof.
  intros Ht (Hh & Hclk & Hc). split; [exact Hh|]. split; [exact Hclk|].
  intros g. specialize (Hc g). unfold conn_hist, logger, observe in *.
  cbn [conns clock trace].
  rewrite events_app, (events_other g t [OLog rec] (Ht g)), app_nil_r.
  exact Hc.
Qed.

Lemma Inv_serve_step (next : http.Handler FS) (st : Process) (a : Action) :
  Inv next st -> Inv next (serve_step a st).
Proof.
  intros HI. unfold serve_step. repeat case_match; try exact HI.
  - apply Inv_set_servepc, Inv_logger; [discriminate|exact HI].
  - apply Inv_os_Exit, Inv_logger; [discriminate|exact HI].
Qed.

Lemma Inv_main_step (next : http.Handler FS) (st : Process) (a : Action) :
  Inv next st -> Inv next (main_step a st).
Proof.
  intros HI. unfold main_step. repeat case_match; try exact HI.
  - apply Inv_set_mainpc, Inv_logger; [discriminate|exact HI].
  - apply Inv_os_Exit, Inv_set_mainpc, Inv_logger; [discriminate|].
    apply Inv_logger; [discriminate|exact HI].
  - apply Inv_os_Exit, Inv_set_mainpc, Inv_logger; [discriminate|exact HI].
Qed.

Lemma Inv_tick (next : http.Handler FS) (st : Process) (d : N) :
  Inv next st ->
  Inv next (set_clock (Z.min (clock st + Z.of_N d) time.maxDuration) st).
Proof.
  intros (Hh & Hclk & Hc). split; [exact Hh|]. split; [simpl; lia|].
  intros g. specialize (Hc g). unfold conn_hist in *; simpl.
  destruct (conns st !! g); [|exact Hc].
  apply (frame_hist_mono _ _ (clock st)); [lia|exact Hc].
Qed.

Lemma Inv_accept (next : http.Handler FS) (st : Process) (r : http.Request)
    (w : W) :
  Inv next st -> Inv next (set_conns (conns st ++ [mkConn r w (AtEntry w)]) st).
Proof.
  intros (Hh & Hclk & Hc). split; [exact Hh|]. split; [exact Hclk|].
  intros g. specialize (Hc g). unfold conn_hist in *; simpl.
  destruct (conns st !! g) as [c|] eqn:Hg.
  - rewrite (lookup_app_l_Some _ _ _ _ Hg). exact Hc.
  - apply lookup_ge_None in Hg. rewrite lookup_app_r by exact Hg.
    destruct (g - length (conns st))%nat as [|n]; simpl.
    + rewrite Hc. constructor.
    + exact Hc.
Qed.

Lemma Inv_run_conn (next : http.Handler FS) (st : Process) (g : nat) (c : Conn) :
  Inv next st ->
  conns st !! g = Some c ->
  Inv next
    (observe (ConnGoroutine g)
       (RequestLogger next (creq c) (clock st) (fsys st) (cframe c)).2
       (set_conns
          (<[g := mkConn (creq c) (cinit c)
                    (RequestLogger next (creq c) (clock st) (fsys st)
                       (cframe c)).1]> (conns st)) st)).
Proof.
  intros (Hh & Hclk & Hc) Hg. split; [exact Hh|]. split; [exact Hclk|].
  intros g'. pose proof (Hc g') as Hc'. unfold conn_hist in *; simpl.
  rewrite events_app. destruct (decide (g' = g)) as [->|Hne].
  - rewrite list_lookup_insert_eq by (eapply lookup_lt_Some; exact Hg).
    simpl. rewrite events_own. rewrite Hg in Hc'.
    apply RequestLogger_hist; assumption.
  - rewrite list_lookup_insert_ne by congruence.
    rewrite events_other, app_nil_r by congruence. exact Hc'.
Qed.

Lemma Inv_conn_step (next : http.Handler FS) (st : Process) (a : Action) :
  Inv next st -> Inv next (conn_step a st).
Proof.
  intros HI. unfold conn_step. destruct a; try exact HI.
  - repeat case_match; try exact HI. apply Inv_accept, HI.
  - destruct (conns st !! g) as [c|] eqn:Hg; [|exact HI].
    destruct HI as (Hh & HI). rewrite Hh.
    destruct (RequestLogger next (creq c) (clock st) (fsys st) (cframe c))
      as [f obs] eqn:Hstep.
    pose proof (Inv_run_conn next st g c (conj Hh HI) Hg) as HI'.
    rewrite Hstep in HI'. exact HI'.
Qed.

Lemma Inv_step (next : http.Handler FS) (st : Process) (a : Action) :
  Inv next st -> Inv next (step st a).
Proof.
  intros HI. unfold step. destruct (exit st); [exact HI|].
  destruct a; auto using Inv_tick, Inv_set_fsys, Inv_serve_step,
    Inv_main_step, Inv_conn_step.
Qed.

Lemma Inv_main (env : gmap string string) (fs : FS) :
  Inv (ServeMux_Handle_root (FileServer (StaticDir (loadConfig env))))
    (main env fs).
Proof.
  split; [reflexivity|]. split.
  - simpl. unfold time.maxDuration. lia.
  - intros g. unfold conn_hist. simpl. reflexivity.
Qed.

Lemma Inv_reachable (env : gmap string string) (fs : FS)
    (sched : list Action) :
  Inv (ServeMux_Handle_root (FileServer (StaticDir (loadConfig env))))
    (run (main env fs) sched).
Proof.
  apply run_invariant; [intros st a; apply Inv_step|apply Inv_main].
Qed.

(** ** What the history of a request looks like *)

Lemma records_app (evs1 evs2 : list Obs) :
  records (evs1 ++ evs2) = records evs1 ++ records evs2.
Proof. unfold records. apply omap_app. Qed.

Lemma records_calls (calls : list Obs) :
  Forall (fun o => is_call o = true) calls -> records calls = [].
Proof.
  induction 1 as [|o calls Ho _ IH]; [reflexivity|].
  destruct o; try discriminate; exact IH.
Qed.

Lemma calls_no_log (calls : list Obs) (rec : slog.Record_) :
  Forall (fun o => is_call o = true) calls -> OLog rec ∉ calls.
Proof.
  intros Hc Hin. rewrite Forall_forall in Hc. apply Hc in Hin. discriminate.
Qed.

Lemma frame_hist_Returned (next : http.Handler FS) (r : http.Request)
    (now : Z) (wr : responseWriter) (evs : list Obs) :
  frame_hist next r now (Returned wr) evs ->
  exists start finish calls,
    Forall (fun o => is_call o = true) calls /\
    0 <= start <= finish /\ finish <= now /\
    status wr = 0 /\ size wr = 0 /\
    evs = ONow start :: calls ++
            [OReturn; OSince finish;
             OLog (request_record r (status wr) (finish - start) (size wr))].
Proof.
  intros Hfh. inversion Hfh; subst. exists start, finish, calls. auto 10.
Qed.

(** Only a handler that has returned has a record in its history. *)
Lemma frame_hist_log (next : http.Handler FS) (r : http.Request) (now : Z)
    (f : Frame) (evs : list Obs) (rec : slog.Record_) :
  frame_hist next r now f evs -> OLog rec ∈ evs -> is_Returned f = true.
Proof.
  intros Hfh Hin.
  destruct Hfh as [w|start wr p calls Hc _ _ _ _|start wr calls Hc _ _ _
                   |start finish wr calls Hc _ _ _ _
                   |start finish wr calls Hc _ _ _ _
                   |start wr calls v Hc _ _ _ _]; try reflexivity; exfalso.
  - inversion Hin.
  - apply elem_of_cons in Hin as [Hin|Hin]; [discriminate|].
    exact (calls_no_log _ _ Hc Hin).
  - apply elem_of_cons in Hin as [Hin|Hin]; [discriminate|].
    apply elem_of_app in Hin as [Hin|Hin]; [exact (calls_no_log _ _ Hc Hin)|].
    apply list_elem_of_singleton in Hin. discriminate.
  - apply elem_of_cons in Hin as [Hin|Hin]; [discriminate|].
    apply elem_of_app in Hin as [Hin|Hin]; [exact (calls_no_log _ _ Hc Hin)|].
    apply elem_of_cons in Hin as [Hin|Hin]; [discriminate|].
    apply list_elem_of_singleton in Hin. discriminate.
  - apply elem_of_cons in Hin as [Hin|Hin]; [discriminate|].
    apply elem_of_app in Hin as [Hin|Hin]; [exact (calls_no_log _ _ Hc Hin)|].
    apply list_elem_of_singleton in Hin. discriminate.
Qed.

(** A handler that has not returned has no record in its history. *)
Lemma frame_hist_no_record (next : http.Handler FS) (r : http.Request)
    (now : Z) (f : Frame) (evs : list Obs) :
  frame_hist next r now f evs -> is_Returned f = false -> records evs = [].
Proof.
  intros Hfh Hnr.
  destruct Hfh as [w|start wr p calls Hc _ _ _ _|start wr calls Hc _ _ _
                   |start finish wr calls Hc _ _ _ _
                   |start finish wr calls Hc _ _ _ _
                   |start wr calls v Hc _ _ _ _]; try discriminate;
    try reflexivity;
    change (ONow start :: ?l) with ([ONow start] ++ l);
    rewrite ?records_app, (records_calls _ Hc); reflexivity.
Qed.


(** ** Every handler that returns gets to its record *)





(** ** The request log *)

(** A record in the history of a request closes that history: before it
    come the reading of the clock at entry, the calls of the inner handler,
    its return and the second reading of the clock, and the record is
    built from that very request and those two readings. *)
Lemma history_of_logged (next : http.Handler FS) (st : Process) (g : nat)
    (rec : slog.Record_) :
  Inv next st ->
  OLog rec ∈ events g (trace st) ->
  exists c wr start finish calls,
    conns st !! g = Some c /\ cframe c = Returned wr /\
    Forall (fun o => is_call o = true) calls /\
    0 <= start <= finish /\ finish <= clock st /\
    status wr = 0 /\ size wr = 0 /\
    events g (trace st)
      = ONow start :: calls ++ [OReturn; OSince finish; OLog rec] /\
    rec = request_record (creq c) (status wr) (finish - start) (size wr).
Proof.
  intros (_ & _ & Hc) Hin. specialize (Hc g). unfold conn_hist in Hc.
  destruct (conns st !! g) as [c|] eqn:Hg.
  2:{ rewrite Hc in Hin. inversion Hin. }
  pose proof (frame_hist_log _ _ _ _ _ _ Hc Hin) as Hret.
  destruct (cframe c) as [| | | |wr|] eqn:Hf; try discriminate.
  destruct (frame_hist_Returned _ _ _ _ _ Hc)
    as (start & finish & calls & Hcalls & Hs & Hfin & Hst & Hsz & Hev).
  exists c, wr, start, finish, calls.
  assert (Hrec : rec = request_record (creq c) (status wr) (finish - start)
                         (size wr)).
  { rewrite Hev in Hin.
    apply elem_of_cons in Hin as [Hin|Hin]; [discriminate|].
    apply elem_of_app in Hin as [Hin|Hin];
      [destruct (calls_no_log _ _ Hcalls Hin)|].
    apply elem_of_cons in Hin as [Hin|Hin]; [discriminate|].
    apply elem_of_cons in Hin as [Hin|Hin]; [discriminate|].
    apply list_elem_of_singleton in Hin. congruence. }
  rewrite Hrec at 1. auto 10.
Qed.

Lemma promoted_methods_keep_fields (w : responseWriter) :
  (forall statusCode,
     status (responseWriter_WriteHeader w statusCode) = status w /\
     size (responseWriter_WriteHeader w statusCode) = size w) /\
  (forall b,
     status (responseWriter_Write w b).1 = status w /\
     size (responseWriter_Write w b).1 = size w).
Proof.
  split; [intros; split; reflexivity|].
  intros b. unfold responseWriter_Write.
  destruct (http.Write (ResponseWriter w) b) as [inner res].
  split; reflexivity.
Qed.

(** C10. Every record that the goroutine of a request writes to the log
    is an "HTTP Request" record whose "status" is 0 and whose "bytes" is 0,
    whatever handler the middleware wraps and whatever that handler sends:
    the methods promoted from the embedded writer leave the two fields of
    the wrapper as they were initialised. *)
Theorem logged_status_and_bytes_are_zero (env : gmap string string) (fs : FS)
    (sched : list Action) (i g : nat) (rec : slog.Record_) :
  trace (run (main env fs) sched) !! i = Some (ConnGoroutine g, OLog rec) ->
  (slog.msg rec = "HTTP Request" /\
   slog.attr "status" (slog.attrs rec) = Some (slog.IntValue 0) /\
   slog.attr "bytes" (slog.attrs rec) = Some (slog.Int64Value 0)) /\
  (forall (w : responseWriter) statusCode b,
     status (responseWriter_WriteHeader w statusCode) = status w /\
     size (responseWriter_WriteHeader w statusCode) = size w /\
     status (responseWriter_Write w b).1 = status w /\
     size (responseWriter_Write w b).1 = size w).
Proof.
  intros Hi. split.
  - apply list_elem_of_lookup_2, elem_of_events in Hi.
    destruct (history_of_logged _ _ _ _ (Inv_reachable env fs sched) Hi)
      as (c & wr & start & finish & calls & _ & _ & _ & _ & _ & Hst & Hsz
          & _ & ->).
    rewrite Hst, Hsz. repeat split; reflexivity.
  - intros w statusCode b.
    destruct (promoted_methods_keep_fields w) as [Hh Hw].
    destruct (Hh statusCode), (Hw b). auto.
Qed.

(** C1. Whenever the inner handler of a request has written bytes to the
    response through the wrapper, the record of that request does not say
    so: its "bytes" is 0, which is not the number of bytes written. *)
Theorem written_bytes_are_not_logged (env : gmap string string) (fs : FS)
    (sched : list Action) (g i : nat) (rec : slog.Record_) :
  events g (trace (run (main env fs) sched)) !! i = Some (OLog rec) ->
  bytes_written (events g (trace (run (main env fs) sched))) <> 0 ->
  slog.attr "bytes" (slog.attrs rec) = Some (slog.Int64Value 0) /\
  slog.attr "bytes" (slog.attrs rec)
    <> Some (slog.Int64Value
               (bytes_written (events g (trace (run (main env fs) sched))))).
Proof.
  intros Hi Hw. apply list_elem_of_lookup_2 in Hi.
  destruct (history_of_logged _ _ _ _ (Inv_reachable env fs sched) Hi)
    as (c & wr & start & finish & calls & _ & _ & _ & _ & _ & _ & Hsz
        & _ & Hrec).
  assert (Hb : slog.attr "bytes" (slog.attrs rec) = Some (slog.Int64Value 0)).
  { rewrite Hrec, Hsz. reflexivity. }
  split; [exact Hb|]. rewrite Hb. intros [= Heq]. auto.
Qed.


Lemma RequestLogger_readings (next : http.Handler FS) (r : http.Request)
    (now : Z) (fs : FS) (f : Frame) (t : Z) :
  ONow t ∈ (RequestLogger next r now fs f).2 \/
  OSince t ∈ (RequestLogger next r now fs f).2 ->
  t = now.
Proof.
  destruct f as [w|start wr p|start wr|d wr|wr|wr]; simpl.
  - intros [Hin|Hin]; apply list_elem_of_singleton in Hin; congruence.
  - destruct p as [|v|key value k|statusCode k|b k|k]; simpl;
      try (destruct (responseWriter_Write wr b) as [wr' [n err]]; simpl);
      intros [Hin|Hin]; inversion Hin; subst;
      match goal with H : _ ∈ [] |- _ => inversion H end.
  - intros [Hin|Hin]; apply list_elem_of_singleton in Hin; congruence.
  - intros [Hin|Hin]; apply list_elem_of_singleton in Hin; congruence.
  - intros [Hin|Hin]; inversion Hin.
  - intros [Hin|Hin]; inversion Hin.
Qed.

(** What the goroutine of a request adds to the history comes from one
    step of its closure. *)
Lemma emitted_conn (next : http.Handler FS) (st : Process) (a : Action)
    (g : nat) (o : Obs) :
  http.Handler_ (srv st) = RequestLogger next ->
  (ConnGoroutine g, o) ∈ emitted st a ->
  exists c,
    conns st !! g = Some c /\
    o ∈ (RequestLogger next (creq c) (clock st) (fsys st) (cframe c)).2.
Proof.
  intros Hh. unfold emitted.
  destruct st as [c [addr h rt wt mh] f t mpc spc cs tr ex]; simpl in *.
  subst h. unfold step; simpl. destruct ex.
  { rewrite drop_all. intros Hin. inversion Hin. }
  destruct a; unfold serve_step, main_step, conn_step; simpl;
    repeat case_match; simplify_eq; simpl;
    rewrite <- ?app_assoc, ?drop_app_length, ?drop_all;
    intros Hin; simpl in Hin;
    repeat match goal with
      | H : _ ∈ [] |- _ => inversion H
      | H : _ ∈ _ :: _ |- _ =>
          apply elem_of_cons in H as [H|H]; [discriminate|]
      end.
  apply list_elem_of_In, in_map_iff in Hin as (o' & Heq & Hin).
  injection Heq as -> ->.
  match goal with
  | Hc : cs !! g = Some ?c, Hs : RequestLogger _ _ _ _ _ = _ |- _ =>
      exists c; split; [exact Hc|]; rewrite Hs; simpl
  end.
  apply list_elem_of_In. exact Hin.
Qed.

Lemma step_clock_mono (next : http.Handler FS) (st : Process) (a : Action) :
  Inv next st -> clock st <= clock (step st a).
Proof.
  intros (_ & Hclk & _). unfold step. destruct (exit st); [lia|].
  destruct a; unfold serve_step, main_step, conn_step; simpl;
    repeat case_match; simpl; lia.
Qed.

(** C6. A record in the history of a request comes last in it, after the
    return of the inner handler: the history is the reading of the clock
    at entry, the calls of the handler, its return, the second reading and
    the record.  The record is built from the request of that goroutine,
    from the wrapper of that goroutine and from its two readings, and its
    "duration" is their difference, which is not negative.  Each reading
    is the clock of the process at the step that takes it, and the clock
    never runs backwards. *)
Theorem record_follows_handler (env : gmap string string) (fs : FS)
    (sched : list Action) (g i : nat) (rec : slog.Record_) :
  events g (trace (run (main env fs) sched)) !! i = Some (OLog rec) ->
  (exists c wr start finish calls,
     conns (run (main env fs) sched) !! g = Some c /\
     cframe c = Returned wr /\
     Forall (fun o => is_call o = true) calls /\
     events g (trace (run (main env fs) sched))
       = ONow start :: calls ++ [OReturn; OSince finish; OLog rec] /\
     rec = request_record (creq c) (status wr) (finish - start) (size wr) /\
     slog.attr "duration" (slog.attrs rec)
       = Some (slog.DurationValue (finish - start)) /\
     0 <= finish - start) /\
  (forall sched' a g' t,
     (ConnGoroutine g', ONow t) ∈ emitted (run (main env fs) sched') a \/
     (ConnGoroutine g', OSince t) ∈ emitted (run (main env fs) sched') a ->
     t = clock (run (main env fs) sched')) /\
  (forall sched' a,
     clock (run (main env fs) sched')
       <= clock (step (run (main env fs) sched') a)).
Proof.
  intros Hi. split; [|split].
  - apply list_elem_of_lookup_2 in Hi.
    destruct (history_of_logged _ _ _ _ (Inv_reachable env fs sched) Hi)
      as (c & wr & start & finish & calls & Hg & Hf & Hcalls & Hs & _ & _ & _
          & Hev & Hrec).
    exists c, wr, start, finish, calls.
    repeat split; try assumption; try lia.
    rewrite Hrec. reflexivity.
  - intros sched' a g' t Hin.
    destruct (Inv_reachable env fs sched') as (Hh & _).
    destruct Hin as [Hin|Hin];
      destruct (emitted_conn _ _ _ _ _ Hh Hin) as (c & _ & Ho);
      eapply RequestLogger_readings; eauto.
  - intros sched' a. eapply step_clock_mono, Inv_reachable.
Qed.

(** ** The same request twice *)

(** One step of the closure moves calls from what is still to come to what
    has been observed, and leaves the final writer where it was. *)
Lemma RequestLogger_finish (next : http.Handler FS) (r : http.Request)
    (now : Z) (fs : FS) (f : Frame) :
  finish_frame next r fs f
  = (filter (fun o => is_call o = true) (RequestLogger next r now fs f).2
       ++ (finish_frame next r fs (RequestLogger next r now fs f).1).1,
     (finish_frame next r fs (RequestLogger next r now fs f).1).2).
Proof.
  destruct f as [w|start wr p|start wr|d wr|wr|wr]; simpl;
    try reflexivity.
  - destruct (ServeHTTP (next r) fs w); reflexivity.
  - destruct p as [|v|key value k|statusCode k|b k|k]; simpl;
      try reflexivity.
    + destruct (ServeHTTP k fs _); reflexivity.
    + destruct (ServeHTTP k fs _); reflexivity.
    + unfold responseWriter_Write.
      destruct (http.Write (ResponseWriter wr) b) as [inner [n err]]; simpl.
      destruct (ServeHTTP (k n err) fs inner); reflexivity.
    + destruct (ServeHTTP (k fs) fs _); reflexivity.
Qed.

Lemma Stable_logger (next : http.Handler FS) (fs : FS) (n0 : nat) (t : Thread)
    (rec : slog.Record_) (st : Process) :
  (forall g, t <> ConnGoroutine g) ->
  Stable next fs n0 st -> Stable next fs n0 (logger t rec st).
Proof.
  intros Ht (Hfs & Hc). split; [exact Hfs|].
  intros g Hg. specialize (Hc g Hg).
  unfold conn_stable, logger, observe in *. cbn [conns trace].
  rewrite events_app, (events_other g t [OLog rec] (Ht g)), app_nil_r.
  exact Hc.
Qed.

Lemma Stable_serve_step (next : http.Handler FS) (fs : FS) (n0 : nat)
    (st : Process) (a : Action) :
  Stable next fs n0 st -> Stable next fs n0 (serve_step a st).
Proof.
  intros HS. unfold serve_step. repeat case_match; try exact HS.
  - apply (Stable_logger next fs n0 ServeGoroutine _ st); [discriminate|exact HS].
  - apply (Stable_logger next fs n0 ServeGoroutine _ st); [discriminate|exact HS].
Qed.

Lemma Stable_main_step (next : http.Handler FS) (fs : FS) (n0 : nat)
    (st : Process) (a : Action) :
  Stable next fs n0 st -> Stable next fs n0 (main_step a st).
Proof.
  intros HS. unfold main_step. repeat case_match; try exact HS.
  - apply (Stable_logger next fs n0 MainGoroutine _ st); [discriminate|exact HS].
  - apply (Stable_logger next fs n0 MainGoroutine _ _); [discriminate|].
    apply (Stable_logger next fs n0 MainGoroutine _ st); [discriminate|exact HS].
  - apply (Stable_logger next fs n0 MainGoroutine _ st); [discriminate|exact HS].
Qed.

Lemma Stable_accept (next : http.Handler FS) (fs : FS) (n0 : nat)
    (st : Process) (r : http.Request) (w : W) :
  Inv next st -> Stable next fs n0 st ->
  Stable next fs n0 (set_conns (conns st ++ [mkConn r w (AtEntry w)]) st).
Proof.
  intros (_ & _ & Hh) (Hfs & Hc). split; [exact Hfs|].
  intros g Hg. specialize (Hc g Hg). specialize (Hh g).
  unfold conn_stable, conn_hist in *; simpl.
  destruct (conns st !! g) as [c|] eqn:Hlk.
  - rewrite (lookup_app_l_Some _ _ _ _ Hlk). exact Hc.
  - apply lookup_ge_None in Hlk. rewrite lookup_app_r by exact Hlk.
    destruct (g - length (conns st))%nat as [|n]; simpl; [|exact I].
    rewrite Hh. simpl. destruct (ServeHTTP (next r) fs w); reflexivity.
Qed.

Lemma Stable_run_conn (next : http.Handler FS) (fs : FS) (n0 : nat)
    (st : Process) (g : nat) (c : Conn) :
  Stable next fs n0 st ->
  conns st !! g = Some c ->
  Stable next fs n0
    (observe (ConnGoroutine g)
       (RequestLogger next (creq c) (clock st) (fsys st) (cframe c)).2
       (set_conns
          (<[g := mkConn (creq c) (cinit c)
                    (RequestLogger next (creq c) (clock st) (fsys st)
                       (cframe c)).1]> (conns st)) st)).
Proof.
  intros (Hfs & Hc) Hg. split; [exact Hfs|].
  intros g' Hg'. specialize (Hc g' Hg'). unfold conn_stable in *; simpl.
  rewrite events_app. destruct (decide (g' = g)) as [->|Hne].
  - rewrite list_lookup_insert_eq by (eapply lookup_lt_Some; exact Hg).
    simpl. rewrite events_own. rewrite Hg in Hc. rewrite <- Hc, Hfs.
    rewrite (RequestLogger_finish next (creq c) (clock st) fs (cframe c)).
    simpl. rewrite filter_app, <- app_assoc. reflexivity.
  - rewrite list_lookup_insert_ne by congruence.
    rewrite events_other, app_nil_r by congruence. exact Hc.
Qed.

Lemma Stable_step (next : http.Handler FS) (fs : FS) (n0 : nat)
    (st : Process) (a : Action) :
  is_FsChange a = false ->
  Inv next st -> Stable next fs n0 st -> Stable next fs n0 (step st a).
Proof.
  intros Ha HI HS. unfold step. destruct (exit st); [exact HS|].
  destruct a; try discriminate;
    auto using Stable_serve_step, Stable_main_step.
  - unfold conn_step. repeat case_match; try exact HS.
    apply Stable_accept; assumption.
  - unfold conn_step. destruct (conns st !! g) as [c|] eqn:Hg; [|exact HS].
    destruct HI as (Hh & _). rewrite Hh.
    pose proof (Stable_run_conn next fs n0 st g c HS Hg) as HS'.
    destruct (RequestLogger next (creq c) (clock st) (fsys st) (cframe c))
      as [f obs]. exact HS'.
Qed.

Lemma Stable_run (next : http.Handler FS) (fs : FS) (n0 : nat)
    (sched : list Action) (st : Process) :
  forallb (fun a => negb (is_FsChange a)) sched = true ->
  Inv next st -> Stable next fs n0 st ->
  Inv next (run st sched) /\ Stable next fs n0 (run st sched).
Proof.
  revert st. induction sched as [|a sched IH]; intros st Hno HI HS.
  - split; assumption.
  - simpl in Hno. apply andb_prop in Hno as [Ha Hno].
    apply negb_true_iff in Ha. rewrite run_cons.
    apply IH; [exact Hno|apply Inv_step, HI|apply Stable_step; assumption].
Qed.

Lemma Stable_start (next : http.Handler FS) (st : Process) :
  Stable next (fsys st) (length (conns st)) st.
Proof.
  split; [reflexivity|]. intros g Hg. unfold conn_stable.
  rewrite (proj2 (lookup_ge_None _ _) Hg). exact I.
Qed.

Lemma first_status_calls (evs : list Obs) :
  first_status (filter (fun o => is_call o = true) evs) = first_status evs.
Proof.
  induction evs as [|o evs IH]; [reflexivity|].
  destruct o; simpl; rewrite ?filter_cons; simpl; try exact IH; reflexivity.
Qed.

Lemma bytes_written_calls (evs : list Obs) :
  bytes_written (filter (fun o => is_call o = true) evs) = bytes_written evs.
Proof.
  induction evs as [|o evs IH]; [reflexivity|].
  destruct o; simpl; rewrite ?filter_cons; simpl; rewrite ?IH; reflexivity.
Qed.

(** C9. Take two requests accepted after some point of a run, equal as
    requests and arriving on writers in the same state, and let the file
    system stay as it is from that point on.  Once both handlers have
    returned, the two responses are the same: the same calls reached the
    two writers, so the same first status code and the same number of
    body bytes, and the writers ended in the same state.  The two records
    agree on "status" and "bytes" as well. *)
Theorem same_request_same_response (env : gmap string string) (fs : FS)
    (sched0 sched : list Action) (g1 g2 : nat) (c1 c2 : Conn) :
  forallb (fun a => negb (is_FsChange a)) sched = true ->
  (length (conns (run (main env fs) sched0)) <= g1)%nat ->
  (length (conns (run (main env fs) sched0)) <= g2)%nat ->
  conns (run (main env fs) (sched0 ++ sched)) !! g1 = Some c1 ->
  conns (run (main env fs) (sched0 ++ sched)) !! g2 = Some c2 ->
  creq c1 = creq c2 ->
  cinit c1 = cinit c2 ->
  is_Returned (cframe c1) = true ->
  is_Returned (cframe c2) = true ->
  exists wr1 wr2,
    cframe c1 = Returned wr1 /\ cframe c2 = Returned wr2 /\
    ResponseWriter wr1 = ResponseWriter wr2 /\
    first_status (events g1 (trace (run (main env fs) (sched0 ++ sched))))
      = first_status (events g2 (trace (run (main env fs) (sched0 ++ sched))))
    /\
    bytes_written (events g1 (trace (run (main env fs) (sched0 ++ sched))))
      = bytes_written (events g2 (trace (run (main env fs) (sched0 ++ sched))))
    /\
    status wr1 = status wr2 /\ size wr1 = size wr2.
Proof.
  intros Hno Hn1 Hn2 Hg1 Hg2 Hreq Hinit Hr1 Hr2.
  rewrite run_app in *.
  set (next := ServeMux_Handle_root (FileServer (StaticDir (loadConfig env)))).
  set (st0 := run (main env fs) sched0) in *.
  destruct (Stable_run next (fsys st0) (length (conns st0)) sched st0 Hno
              (Inv_reachable env fs sched0) (Stable_start next st0))
    as [(_ & _ & Hh) (_ & HS)].
  pose proof (HS g1 Hn1) as H1. pose proof (HS g2 Hn2) as H2.
  pose proof (Hh g1) as Hh1. pose proof (Hh g2) as Hh2.
  unfold conn_stable, conn_hist in H1, H2, Hh1, Hh2.
  rewrite Hg1 in H1, Hh1. rewrite Hg2 in H2, Hh2.
  destruct (cframe c1) as [| | | |wr1|]; try discriminate.
  destruct (cframe c2) as [| | | |wr2|]; try discriminate.
  simpl in H1, H2. rewrite Hreq, Hinit, <- H2, !app_nil_r in H1.
  injection H1 as Hcalls Hw.
  destruct (frame_hist_Returned _ _ _ _ _ Hh1)
    as (_ & _ & _ & _ & _ & _ & Hst1 & Hsz1 & _).
  destruct (frame_hist_Returned _ _ _ _ _ Hh2)
    as (_ & _ & _ & _ & _ & _ & Hst2 & Hsz2 & _).
  exists wr1, wr2. repeat split; try congruence.
  - rewrite <- first_status_calls, Hcalls. apply first_status_calls.
  - rewrite <- bytes_written_calls, Hcalls. apply bytes_written_calls.
Qed.

End Properties.

(** ** The model at work on the concrete server *)




Lemma written_bytes_are_not_logged_hello :
  events 0 (trace helloRun) !! 5%nat
    = Some (OLog (request_record (GET "/hello.txt") 0 10 0)) /\
  bytes_written (events 0 (trace helloRun)) = 5 /\
  slog.attr "bytes" (slog.attrs (request_record (GET "/hello.txt") 0 10 0))
    = Some (slog.Int64Value 0) /\
  slog.attr "bytes" (slog.attrs (request_record (GET "/hello.txt") 0 10 0))
    <> Some (slog.Int64Value 5).
Proof.
  assert (Hi : events 0 (trace helloRun) !! 5%nat
               = Some (OLog (request_record (GET "/hello.txt") 0 10 0)))
    by (vm_compute; reflexivity).
  assert (Hw : bytes_written (events 0 (trace helloRun)) = 5)
    by (vm_compute; reflexivity).
  split; [exact Hi|]. split; [exact Hw|].
  rewrite <- Hw.
  apply (written_bytes_are_not_logged fileServer rootMux ∅ helloDir
           helloSchedule 0 5 _ Hi).
  rewrite Hw. discriminate.
Defined.

Lemma exit_codes_after_signal :
  exit (shutdownRun SIGTERM) = None /\
  exit (run (shutdownRun SIGTERM) [ShutdownReturns None]) = Some 0 /\
  exit (run (shutdownRun SIGTERM) [ShutdownReturns (Some DeadlineExceeded)])
    = Some 0 /\
  exit (run (shutdownRun SIGTERM) [ListenAndServeReturns (Some addrInUse)])
    = Some 1.
Proof.
  assert (Halive : exit (shutdownRun SIGTERM) = None) by reflexivity.
  split; [exact Halive|].
  destruct (exit_codes (shutdownRun SIGTERM) Halive)
    as (Hdown & _ & Hfail & _).
  split; [|split].
  - exact (Hdown _ None [] eq_refl).
  - exact (Hdown _ (Some DeadlineExceeded) [] eq_refl).
  - exact (proj1 (Hfail addrInUse [] eq_refl eq_refl)).
Defined.

Lemma record_follows_handler_index :
  events 0 (trace indexRun) !! 5%nat
    = Some (OLog (request_record (GET "/index.html") 0 10 0)) /\
  exists start finish calls,
    events 0 (trace indexRun)
      = ONow start :: calls ++
          [OReturn; OSince finish;
           OLog (request_record (GET "/index.html") 0 10 0)] /\
    0 <= finish - start.
Proof.
  assert (Hi : events 0 (trace indexRun) !! 5%nat
               = Some (OLog (request_record (GET "/index.html") 0 10 0)))
    by (vm_compute; reflexivity).
  split; [exact Hi|].
  destruct (record_follows_handler fileServer rootMux ∅ exampleDir
              indexSchedule 0 5 _ Hi)
    as ((c & wr & start & finish & calls & _ & _ & _ & Hev & _ & _ & Hd) & _).
  exists start, finish, calls. split; [exact Hev|exact Hd].
Defined.

Lemma SIGINT_SIGTERM_alike_started :
  exit (run (exampleMain ∅) [RunServe]) = None /\
  mainpc (run (exampleMain ∅) [RunServe]) = MainWaiting /\
  exists common,
    run (shutdownRun SIGINT) [ShutdownReturns None]
      = prepend (trace (run (exampleMain ∅) [RunServe])
                   ++ [shutting_down_record SIGINT]) common /\
    run (shutdownRun SIGTERM) [ShutdownReturns None]
      = prepend (trace (run (exampleMain ∅) [RunServe])
                   ++ [shutting_down_record SIGTERM]) common.
Proof.
  split; [reflexivity|]. split; [reflexivity|].
  destruct (SIGINT_SIGTERM_alike (run (exampleMain ∅) [RunServe])
              [ShutdownReturns None] eq_refl eq_refl) as (_ & Hint & Hterm).
  eexists. split; [exact Hint|exact Hterm].
Defined.

Lemma same_request_same_response_index :
  exists wr1 wr2,
    conns (run (exampleMain ∅) ([RunServe] ++ twiceSchedule)) !! 0%nat
      = Some (mkConn (GET "/index.html") NewRecorder (Returned wr1)) /\
    conns (run (exampleMain ∅) ([RunServe] ++ twiceSchedule)) !! 1%nat
      = Some (mkConn (GET "/index.html") NewRecorder (Returned wr2)) /\
    ResponseWriter wr1 = ResponseWriter wr2 /\
    Code (ResponseWriter wr1) = 200 /\
    Body (ResponseWriter wr1) = indexPage.
Proof.
  destruct (same_request_same_response fileServer rootMux ∅ exampleDir
              [RunServe] twiceSchedule 0 1 indexConn indexConn)
    as (wr1 & wr2 & H1 & H2 & Hw & _);
    try reflexivity; try (vm_compute; lia).
  exists wr1, wr2. injection H1 as <-. injection H2 as <-.
  repeat split; reflexivity.
Defined.

Lemma logged_status_and_bytes_are_zero_index :
  trace indexRun !! 6%nat
    = Some (ConnGoroutine 0, OLog (request_record (GET "/index.html") 0 10 0))
  /\
  slog.attr "status" (slog.attrs (request_record (GET "/index.html") 0 10 0))
    = Some (slog.IntValue 0) /\
  slog.attr "bytes" (slog.attrs (request_record (GET "/index.html") 0 10 0))
    = Some (slog.Int64Value 0).
Proof.
  assert (Hi : trace indexRun !! 6%nat
               = Some (ConnGoroutine 0,
                       OLog (request_record (GET "/index.html") 0 10 0)))
    by (vm_compute; reflexivity).
  split; [exact Hi|].
  destruct (logged_status_and_bytes_are_zero fileServer rootMux ∅ exampleDir
              indexSchedule 6 0 _ Hi) as ((_ & Hst & Hsz) & _).
  split; [exact Hst|exact Hsz].
Defined.

(** C2. A missing file is requested: the inner handler sets the status
    404 through the wrapper, the client gets 404, and the record of the
    request says "status" 0. *)
Lemma status_set_is_not_recorded :
  conns missingRun !! 0%nat
    = Some (mkConn (GET "/missing.html") NewRecorder
              (Returned (mkResponseWriter (wrote 404 notFoundPage) 0 0))) /\
  first_status (events 0 (trace missingRun)) = Some 404 /\
  records (events 0 (trace missingRun))
    = [request_record (GET "/missing.html") 0 10 0] /\
  slog.attr "status" (slog.attrs (request_record (GET "/missing.html") 0 10 0))
    = Some (slog.IntValue 0).
Proof. vm_compute. repeat split; reflexivity. Qed.

(** * Further properties of the code *)

(** ** More on the configuration *)

(** X7. The port and the static root of a loaded configuration are never
    empty, whatever the environment holds. *)
Theorem loadConfig_never_empty (env : gmap string string) :
  Port (loadConfig env) <> "" /\ StaticDir (loadConfig env) <> "".
Proof.
  unfold loadConfig; simpl. split.
  - destruct (String.eqb_spec (Getenv env "PORT") ""); [discriminate|assumption].
  - destruct (String.eqb_spec (Getenv env "STATIC_DIR") "");
      [discriminate|assumption].
Qed.

Lemma Getenv_insert_ne (env : gmap string string) (k key v : string) :
  k <> key -> Getenv (<[k := v]> env) key = Getenv env key.
Proof. intros Hne. unfold Getenv. rewrite lookup_insert_ne by exact Hne. reflexivity. Qed.

Lemma Getenv_delete_ne (env : gmap string string) (k key : string) :
  k <> key -> Getenv (delete k env) key = Getenv env key.
Proof. intros Hne. unfold Getenv. rewrite lookup_delete_ne by exact Hne. reflexivity. Qed.

(** X8. [loadConfig] reads PORT and STATIC_DIR and nothing else: setting
    or unsetting any other variable leaves the configuration as it is. *)
Theorem loadConfig_other_variables (env : gmap string string) (k v : string) :
  k <> "PORT" -> k <> "STATIC_DIR" ->
  loadConfig (<[k := v]> env) = loadConfig env /\
  loadConfig (delete k env) = loadConfig env.
Proof.
  intros Hp Hd. unfold loadConfig.
  rewrite !Getenv_insert_ne, !Getenv_delete_ne by assumption.
  split; reflexivity.
Qed.

Lemma Getenv_insert (env : gmap string string) (key v : string) :
  Getenv (<[key := v]> env) key = v.
Proof. unfold Getenv. rewrite lookup_insert_eq. reflexivity. Qed.

(** X9. Exporting the port and the static root of a loaded configuration
    back into the environment and loading again gives the same
    configuration: the defaults are stable under a reload. *)
Theorem loadConfig_reload (env : gmap string string) :
  loadConfig
    (<["PORT" := Port (loadConfig env)]>
       (<["STATIC_DIR" := StaticDir (loadConfig env)]> env))
  = loadConfig env.
Proof.
  destruct (loadConfig_never_empty env) as [Hp Hd].
  unfold loadConfig at 1.
  rewrite Getenv_insert, (Getenv_insert_ne _ "PORT" "STATIC_DIR") by discriminate.
  rewrite Getenv_insert.
  rewrite (eqb_empty_false _ Hp), (eqb_empty_false _ Hd).
  reflexivity.
Qed.

Section Lifecycle.
Context {W : Type} `{!http.ResponseWriter W}.
Context {FS : Type}.
Variable FileServer : string -> http.Handler FS.
Variable ServeMux_Handle_root : http.Handler FS -> http.Handler FS.

Local Open Scope list_scope.

Local Abbreviation main := (main FileServer ServeMux_Handle_root).
Local Abbreviation next env :=
  (ServeMux_Handle_root (FileServer (StaticDir (loadConfig env)))).
Local Abbreviation Process := (@Process W FS).
Local Abbreviation Action := (@Action W FS).
Local Abbreviation Conn := (@Conn W FS).
Local Abbreviation responseWriter := (@responseWriter W).

(** ** The log of the lifecycle *)

Lemma filter_by_main_conn (g : nat) (obs : list Obs) :
  List.filter by_main (map (pair (ConnGoroutine g)) obs) = [].
Proof. induction obs as [|o obs IH]; [reflexivity|exact IH]. Qed.

Lemma filter_by_serve_conn (g : nat) (obs : list Obs) :
  List.filter by_serve (map (pair (ConnGoroutine g)) obs) = [].
Proof. induction obs as [|o obs IH]; [reflexivity|exact IH]. Qed.

Lemma Life_step (st : Process) (a : Action) : Life st -> Life (step st a).
Proof.
  destruct st as [c s f t mpc spc cs tr ex].
  unfold Life, exit_ok, step; simpl.
  destruct ex as [code|]; simpl; intros (Hm & Hs & He); [tauto|].
  destruct a as [d|fs'| |err|sig|err|r w|g];
    unfold serve_step, main_step, conn_step; simpl.
  - tauto.
  - tauto.
  - destruct spc; simpl; try tauto.
    rewrite !List.filter_app; simpl. rewrite app_nil_r, Hs.
    split; [exact Hm|]. split; [left; reflexivity|exact He].
  - destruct spc; simpl; try (destruct err; tauto).
    destruct Hs as [Hs|(e & _ & Hex & _)]; [|discriminate].
    destruct err as [e|]; simpl; try tauto.
    destruct (errors.Is e isErrServerClosed) eqn:HIs; simpl; try tauto.
    rewrite !List.filter_app; simpl. rewrite app_nil_r, Hs, last_snoc.
    split; [exact Hm|]. split; [right; eauto|]. right. eauto 10.
  - destruct mpc; simpl; try tauto.
    rewrite !List.filter_app; simpl. rewrite app_nil_r, Hm.
    split; [eauto|]. split; [exact Hs|discriminate].
  - destruct mpc as [|deadline|]; simpl; try tauto.
    destruct Hm as [sig Hm].
    assert (Hs' : serve_log_ok c spc (Some 0) (List.filter by_serve tr)).
    { destruct spc; simpl in *; try tauto.
      destruct Hs as [Hs|(e & _ & Hex & _)]; [tauto|discriminate]. }
    destruct err as [e|]; simpl;
      rewrite !List.filter_app; simpl; rewrite ?app_nil_r, Hm, last_snoc;
      (split; [eauto 10|]); (split; [exact Hs'|]); left; auto.
  - destruct spc, mpc; simpl; tauto.
  - destruct (cs !! g) as [cn|]; simpl; try tauto.
    destruct (http.Handler_ s (creq cn) t f (cframe cn)) as [f' obs]; simpl.
    rewrite !List.filter_app, filter_by_main_conn, filter_by_serve_conn,
      !app_nil_r.
    tauto.
Qed.

Lemma Life_reachable (env : gmap string string) (fs : FS)
    (sched : list Action) :
  Life (run (main env fs) sched).
Proof.
  apply run_invariant; [intros st a; apply Life_step|].
  repeat split; simpl; discriminate.
Qed.

Lemma cfg_reachable (env : gmap string string) (fs : FS)
    (sched : list Action) :
  cfg (run (main env fs) sched) = loadConfig env.
Proof.
  apply (run_invariant (fun st => cfg st = loadConfig env));
    [|reflexivity].
  intros st a Hc. rewrite step_cfg. exact Hc.
Qed.


Lemma last_filter {A : Type} (P : A -> bool) (l : list A) (x : A) :
  last l = Some x -> P x = true -> last (List.filter P l) = Some x.
Proof.
  intros Hl HP. apply last_Some in Hl as [l' ->].
  rewrite List.filter_app. simpl. rewrite HP. apply last_snoc.
Qed.

(** X2. The exit code is 0 or 1.  It is 0 exactly when [main] has
    returned.  It is 1 only if [ListenAndServe] returned an error that is
    not [ErrServerClosed], and then what the server goroutine has logged
    is "Starting server" followed by "Could not listen on" with the
    configured port and that error. *)
Theorem exit_code_origin (env : gmap string string) (fs : FS)
    (sched : list Action) :
  (forall code,
     exit (run (main env fs) sched) = Some code ->
     (code = 0 /\ mainpc (run (main env fs) sched) = MainReturned) \/
     (code = 1 /\ mainpc (run (main env fs) sched) <> MainReturned /\
      exists e,
        errors.Is e isErrServerClosed = false /\
        List.filter by_serve (trace (run (main env fs) sched))
          = [starting_record (loadConfig env);
             listen_failed_record (Port (loadConfig env)) e])) /\
  (mainpc (run (main env fs) sched) = MainReturned <->
   exit (run (main env fs) sched) = Some 0).
Proof.
  destruct (Life_reachable env fs sched) as (_ & Hs & He).
  unfold exit_ok in He. rewrite cfg_reachable in He, Hs.
  destruct (exit (run (main env fs) sched)) as [code|].
  - split.
    + intros code' [= <-].
      destruct He as [(-> & Hpc & _)|(-> & Hpc & e & HIs & Hl)];
        [left; auto|right].
      split; [reflexivity|]. split; [exact Hpc|]. exists e.
      split; [exact HIs|].
      apply (last_filter by_serve) in Hl; [|reflexivity].
      destruct (servepc (run (main env fs) sched)); simpl in Hs.
      * rewrite Hs in Hl. discriminate.
      * destruct Hs as [Hs|(e' & _ & _ & Hs)]; rewrite Hs in Hl.
        -- discriminate.
        -- injection Hl as ->. exact Hs.
      * rewrite Hs in Hl. discriminate.
    + destruct He as [(-> & Hpc & _)|(-> & Hpc & _)];
        split; intros Hx; try congruence.
  - split; [discriminate|]. split; intros Hx; [contradiction|discriminate].
Qed.

(** ** Signals after the first *)

Lemma step_Deliver_ignored (st : Process) (sig : Signal) :
  mainpc st <> MainWaiting -> step st (Deliver sig) = st.
Proof.
  intros Hpc. unfold step, main_step.
  destruct (exit st); [reflexivity|].
  destruct (mainpc st); [contradiction|reflexivity|reflexivity].
Qed.

Lemma step_leaves_MainWaiting (st : Process) (a : Action) :
  mainpc st <> MainWaiting -> mainpc (step st a) <> MainWaiting.
Proof.
  destruct st as [c s f t mpc spc cs tr ex]; simpl.
  intros Hpc. unfold step; simpl. destruct ex; [exact Hpc|].
  destruct a; unfold serve_step, main_step, conn_step; simpl;
    repeat case_match; simpl; try exact Hpc; discriminate.
Qed.

(** X3. Once [main] has taken a signal off the channel, the signals that
    follow change nothing: a schedule and the same schedule without its
    deliveries lead to the same state, the same log and the same exit
    code. *)
Theorem later_signals_are_ignored (st : Process) (sched : list Action) :
  mainpc st <> MainWaiting ->
  run st (List.filter (fun a => negb (is_Deliver a)) sched) = run st sched.
Proof.
  revert st. induction sched as [|a sched IH]; intros st Hpc; [reflexivity|].
  rewrite run_cons. cbn [List.filter].
  destruct (is_Deliver a) eqn:Ha; cbn [negb].
  - destruct a; try discriminate.
    rewrite step_Deliver_ignored by exact Hpc. apply IH, Hpc.
  - rewrite run_cons. apply IH, step_leaves_MainWaiting, Hpc.
Qed.

(** ** Requests that never get a record *)

Lemma Panicked_stuck (next : http.Handler FS) (st : Process) (a : Action)
    (g : nat) (c : Conn) (wr : responseWriter) :
  http.Handler_ (srv st) = RequestLogger next ->
  conns st !! g = Some c -> cframe c = Panicked wr ->
  conns (step st a) !! g = Some c.
Proof.
  intros Hh Hg Hf. unfold step. destruct (exit st); [exact Hg|].
  destruct a; unfold serve_step, main_step, conn_step;
    repeat case_match; simpl; try exact Hg.
  - apply lookup_app_l_Some. exact Hg.
  - match goal with
    | Hg' : conns st !! ?g' = Some ?c' |- _ =>
        destruct (decide (g = g')) as [<-|Hne]
    end.
    + rewrite list_lookup_insert_eq by (eapply lookup_lt_Some; exact Hg).
      simplify_eq. rewrite Hh, Hf in *. simplify_eq. simpl.
      destruct c; simpl in *. congruence.
    + rewrite list_lookup_insert_ne by congruence. exact Hg.
Qed.

Lemma Panicked_forever (next : http.Handler FS) (sched : list Action)
    (st : Process) (g : nat) (c : Conn) (wr : responseWriter) :
  http.Handler_ (srv st) = RequestLogger next ->
  conns st !! g = Some c -> cframe c = Panicked wr ->
  conns (run st sched) !! g = Some c.
Proof.
  revert st. induction sched as [|a sched IH]; intros st Hh Hg Hf;
    [exact Hg|].
  rewrite run_cons. apply IH; [rewrite step_srv; exact Hh| |exact Hf].
  eapply Panicked_stuck; eassumption.
Qed.

(** X4. The closure neither recovers from a panic of the inner handler
    nor outlives the process: a request whose handler has panicked, and a
    request that is still being served when the process ends, stays as it
    is under every further schedule and never gets a record. *)
Theorem no_record_after_panic_or_exit (env : gmap string string) (fs : FS)
    (sched sched' : list Action) (g : nat) (c : Conn) :
  conns (run (main env fs) sched) !! g = Some c ->
  is_Returned (cframe c) = false ->
  (exists code, exit (run (main env fs) sched) = Some code) \/
  (exists wr, cframe c = Panicked wr) ->
  conns (run (main env fs) (sched ++ sched')) !! g = Some c /\
  records (events g (trace (run (main env fs) (sched ++ sched')))) = [].
Proof.
  intros Hg Hnr Hcut.
  assert (Hg' : conns (run (main env fs) (sched ++ sched')) !! g = Some c).
  { rewrite run_app. destruct Hcut as [[code Hex]|[wr Hf]].
    - rewrite (run_exited sched' _ code Hex). exact Hg.
    - destruct (Inv_reachable FileServer ServeMux_Handle_root env fs sched)
        as (Hh & _).
      eapply Panicked_forever; eassumption. }
  split; [exact Hg'|].
  destruct (Inv_reachable FileServer ServeMux_Handle_root env fs
              (sched ++ sched')) as (_ & _ & Hc).
  specialize (Hc g). unfold conn_hist in Hc. rewrite Hg' in Hc.
  eapply frame_hist_no_record; eassumption.
Qed.

(** ** The middleware is transparent *)

(** X5. The wrapper changes nothing of the response.  For a request
    accepted after some point of a run from which the file system stays as
    it is: the calls that have reached the writer of the connection are at
    every moment the first calls of the inner handler run directly on that
    writer, and once the handler has returned or panicked they are all of
    them and the writer is in the state in which the direct run leaves
    it. *)
Theorem RequestLogger_is_transparent (env : gmap string string) (fs : FS)
    (sched0 sched : list Action) (g : nat) (c : Conn) :
  forallb (fun a => negb (is_FsChange a)) sched = true ->
  (length (conns (run (main env fs) sched0)) <= g)%nat ->
  conns (run (main env fs) (sched0 ++ sched)) !! g = Some c ->
  (exists rest,
     (ServeHTTP (next env (creq c)) (fsys (run (main env fs) sched0))
        (cinit c)).1
     = filter (fun o => is_call o = true)
         (events g (trace (run (main env fs) (sched0 ++ sched)))) ++ rest) /\
  (forall wr,
     cframe c = Returned wr \/ cframe c = Panicked wr ->
     ServeHTTP (next env (creq c)) (fsys (run (main env fs) sched0)) (cinit c)
     = (filter (fun o => is_call o = true)
          (events g (trace (run (main env fs) (sched0 ++ sched)))),
        ResponseWriter wr)).
Proof.
  intros Hno Hn Hg. rewrite run_app in *.
  set (st0 := run (main env fs) sched0) in *.
  destruct (Stable_run (next env) (fsys st0) (length (conns st0)) sched st0
              Hno (Inv_reachable FileServer ServeMux_Handle_root env fs sched0)
              (Stable_start (next env) st0))
    as [_ (_ & HS)].
  specialize (HS g Hn). unfold conn_stable in HS. rewrite Hg in HS.
  rewrite <- HS. split.
  - eexists. reflexivity.
  - intros wr [Hf|Hf]; rewrite Hf; simpl; rewrite app_nil_r; reflexivity.
Qed.

(** ** The fields of the record *)

(** X6. A record of a request is an Info record with the seven
    attributes method, path, status, remote_addr, user_agent, duration and
    bytes, in this order; remote_addr is the remote address of the request
    and user_agent the first value of its User-Agent header, the empty
    string when the request has no such header. *)
Theorem record_fields (env : gmap string string) (fs : FS)
    (sched : list Action) (i g : nat) (rec : slog.Record_) :
  trace (run (main env fs) sched) !! i = Some (ConnGoroutine g, OLog rec) ->
  exists c,
    conns (run (main env fs) sched) !! g = Some c /\
    slog.level rec = slog.LevelInfo /\
    map fst (slog.attrs rec)
      = ["method"; "path"; "status"; "remote_addr"; "user_agent";
         "duration"; "bytes"] /\
    slog.attr "remote_addr" (slog.attrs rec)
      = Some (slog.StringValue (http.RemoteAddr (creq c))) /\
    slog.attr "user_agent" (slog.attrs rec)
      = Some (slog.StringValue (http.UserAgent (creq c))) /\
    (http.Header (creq c) !! "User-Agent" = None \/
     http.Header (creq c) !! "User-Agent" = Some [] ->
     slog.attr "user_agent" (slog.attrs rec) = Some (slog.StringValue "")).
Proof.
  intros Hi. apply list_elem_of_lookup_2, elem_of_events in Hi.
  destruct (history_of_logged _ _ _ _
              (Inv_reachable FileServer ServeMux_Handle_root env fs sched) Hi)
    as (c & wr & start & finish & calls & Hg & _ & _ & _ & _ & _ & _ & _ & ->).
  exists c. split; [exact Hg|]. repeat split.
  intros Hua. simpl. unfold http.UserAgent.
  destruct Hua as [-> | ->]; reflexivity.
Qed.

End Lifecycle.

Section Counting.
Context {W : Type} `{!http.ResponseWriter W}.
Context {FS : Type}.
Variable FileServer : string -> http.Handler FS.
Variable ServeMux_Handle_root : http.Handler FS -> http.Handler FS.

Local Open Scope list_scope.
Local Open Scope nat_scope.

Local Abbreviation main := (main FileServer ServeMux_Handle_root).
Local Abbreviation Process := (@Process W FS).
Local Abbreviation Frame := (@Frame W FS).
Local Abbreviation Action := (@Action W FS).
Local Abbreviation Conn := (@Conn W FS).

(** ** As many records as returned handlers *)





(** ** A request moves only when its goroutine runs *)

Lemma step_other (st : Process) (a : Action) (g : nat) (c : Conn) :
  runs g a = false ->
  conns st !! g = Some c ->
  conns (step st a) !! g = Some c /\
  events g (trace (step st a)) = events g (trace st).
Proof.
  intros Ha Hg. unfold step. destruct (exit st); [auto|].
  destruct a as [d|fs'| |err|sig|err|r w|g'];
    unfold serve_step, main_step, conn_step, logger, observe; simpl;
    repeat case_match; simpl; rewrite ?events_app;
    repeat match goal with
      | |- context [events g (map (pair ?t) ?obs)] =>
          rewrite (events_other g t obs) by congruence
      | |- context [events g [(?t, ?o)]] =>
          rewrite (events_other g t [o]) by congruence
      end;
    rewrite ?app_nil_r; try (split; [exact Hg|reflexivity]).
  - split; [|reflexivity]. apply lookup_app_l_Some. exact Hg.
  - simpl in Ha. apply Nat.eqb_neq in Ha.
    rewrite (events_other g (ConnGoroutine g')) by congruence.
    rewrite app_nil_r, list_lookup_insert_ne by exact Ha.
    split; [exact Hg|reflexivity].
Qed.

(** X11. The frame and the history of a request change only in the steps
    of its own goroutine: ticks of the clock, changes of the file system,
    signals, the lifecycle of the server, new requests and the steps of
    the other requests leave them as they are. *)
Theorem request_moves_only_by_its_goroutine (st : Process)
    (sched : list Action) (g : nat) (c : Conn) :
  forallb (fun a => negb (runs g a)) sched = true ->
  conns st !! g = Some c ->
  conns (run st sched) !! g = Some c /\
  events g (trace (run st sched)) = events g (trace st).
Proof.
  revert st. induction sched as [|a sched IH]; intros st Hno Hg; [auto|].
  simpl in Hno. apply andb_prop in Hno as [Ha Hno].
  apply negb_true_iff in Ha.
  destruct (step_other st a g c Ha Hg) as [Hg' Hev].
  rewrite run_cons. destruct (IH _ Hno Hg') as [Hg'' Hev'].
  split; [exact Hg''|]. rewrite Hev'. exact Hev.
Qed.

End Counting.

(** ** The further properties at work on the concrete server *)

Lemma later_signals_are_ignored_SIGINT :
  mainpc (shutdownRun SIGINT) <> MainWaiting /\
  run (shutdownRun SIGINT) [ShutdownReturns None]
  = run (shutdownRun SIGINT)
      [Deliver SIGTERM; ShutdownReturns None; Deliver SIGINT].
Proof.
  assert (Hpc : mainpc (shutdownRun SIGINT) <> MainWaiting)
    by (vm_compute; discriminate).
  split; [exact Hpc|].
  exact (later_signals_are_ignored (shutdownRun SIGINT)
           [Deliver SIGTERM; ShutdownReturns None; Deliver SIGINT] Hpc).
Defined.

Lemma no_record_after_exit_cut_off :
  conns (run (exampleMain ∅) cutOffSchedule) !! 0%nat = Some cutOffConn /\
  exit (run (exampleMain ∅) cutOffSchedule) = Some 0 /\
  records
    (events 0
       (trace (run (exampleMain ∅)
                 (cutOffSchedule ++ [RunConn 0; RunConn 0; RunConn 0;
                                     RunConn 0; RunConn 0]))))
  = [].
Proof.
  assert (Hg : conns (run (exampleMain ∅) cutOffSchedule) !! 0%nat
               = Some cutOffConn) by (vm_compute; reflexivity).
  assert (Hex : exit (run (exampleMain ∅) cutOffSchedule) = Some 0)
    by (vm_compute; reflexivity).
  split; [exact Hg|]. split; [exact Hex|].
  exact (proj2 (no_record_after_panic_or_exit fileServer rootMux ∅ exampleDir
                  cutOffSchedule
                  [RunConn 0; RunConn 0; RunConn 0; RunConn 0; RunConn 0]
                  0 cutOffConn Hg eq_refl
                  (or_introl (ex_intro _ 0 Hex)))).
Defined.

Lemma RequestLogger_is_transparent_index :
  conns (run (exampleMain ∅) ([RunServe] ++ twiceSchedule)) !! 1%nat
    = Some indexConn /\
  ServeHTTP (rootMux (fileServer (StaticDir (loadConfig ∅)))
               (creq indexConn))
    (fsys (run (exampleMain ∅) [RunServe])) (cinit indexConn)
  = (filter (fun o => is_call o = true)
       (events 1 (trace (run (exampleMain ∅) ([RunServe] ++ twiceSchedule)))),
     wrote 200 indexPage).
Proof.
  assert (Hg : conns (run (exampleMain ∅) ([RunServe] ++ twiceSchedule))
                 !! 1%nat = Some indexConn) by (vm_compute; reflexivity).
  split; [exact Hg|].
  assert (Hn : (length (conns (run (exampleMain ∅) [RunServe])) <= 1)%nat)
    by (vm_compute; lia).
  exact (proj2 (RequestLogger_is_transparent fileServer rootMux ∅ exampleDir
                  [RunServe] twiceSchedule 1 indexConn eq_refl Hn Hg)
           _ (or_introl eq_refl)).
Defined.

Lemma record_fields_index :
  trace indexRun !! 6%nat
    = Some (ConnGoroutine 0, OLog (request_record (GET "/index.html") 0 10 0))
  /\
  slog.attr "remote_addr"
    (slog.attrs (request_record (GET "/index.html") 0 10 0))
    = Some (slog.StringValue "127.0.0.1:51234") /\
  slog.attr "user_agent"
    (slog.attrs (request_record (GET "/index.html") 0 10 0))
    = Some (slog.StringValue "curl/8.5.0").
Proof.
  assert (Hi : trace indexRun !! 6%nat
               = Some (ConnGoroutine 0,
                       OLog (request_record (GET "/index.html") 0 10 0)))
    by (vm_compute; reflexivity).
  split; [exact Hi|].
  destruct (record_fields fileServer rootMux ∅ exampleDir indexSchedule 6 0 _
              Hi) as (c & Hg & _ & _ & Hra & Hua & _).
  assert (Hc : conns indexRun !! 0%nat = Some indexConn)
    by (vm_compute; reflexivity).
  rewrite Hc in Hg. injection Hg as <-. split; [exact Hra|exact Hua].
Defined.

Lemma loadConfig_other_variables_HOME :
  loadConfig (<["HOME" := "/root"]> {["PORT" := "9090"]})
  = loadConfig {["PORT" := "9090"]}.
Proof.
  exact (proj1 (loadConfig_other_variables {["PORT" := "9090"]} "HOME" "/root"
                  ltac:(discriminate) ltac:(discriminate))).
Defined.

Lemma request_moves_only_by_its_goroutine_index :
  conns (run (exampleMain ∅) [RunServe; Accept (GET "/index.html") NewRecorder])
    !! 0%nat
    = Some (mkConn (GET "/index.html") NewRecorder (AtEntry NewRecorder)) /\
  conns (run (run (exampleMain ∅)
                [RunServe; Accept (GET "/index.html") NewRecorder])
           [Tick 5; Accept (GET "/missing.html") NewRecorder; RunConn 1;
            RunConn 1; Deliver SIGINT]) !! 0%nat
    = Some (mkConn (GET "/index.html") NewRecorder (AtEntry NewRecorder)).
Proof.
  assert (Hg : conns (run (exampleMain ∅)
                        [RunServe; Accept (GET "/index.html") NewRecorder])
                 !! 0%nat
               = Some (mkConn (GET "/index.html") NewRecorder
                         (AtEntry NewRecorder)))
    by (vm_compute; reflexivity).
  split; [exact Hg|].
  exact (proj1 (request_moves_only_by_its_goroutine _
                  [Tick 5; Accept (GET "/missing.html") NewRecorder; RunConn 1;
                   RunConn 1; Deliver SIGINT] 0 _ eq_refl Hg)).
Defined.
